(** * FTL engine: the dnsmasq interfacing routines (src/dnsmasq_interface.c)

    A shallow embedding of the event handlers that dnsmasq calls into
    (FTL_new_query, FTL_forwarded, FTL_reply, FTL_cache, FTL_dnssec,
    FTL_dnsmasq_reload, FTL_read_hosts) together with their helpers
    storeIP, save_reply_type and print_flags.

    Conventions of the model
    - C [int] counters and indices are mathematical integers [Z]; nothing
      here relies on wrap-around (signed overflow is undefined in C).
    - The global arrays [queries], [domains], [clients], [forwarded] and
      [overTime] are lists.  A read outside the list yields a zeroed record
      and an in-place update outside the list is dropped (in C both are
      undefined behaviour that [validate_access] merely logs).
    - [memory_check] only guarantees capacity; in the model the write to
      slot [counters.queries] of the query array appends.
    - Address formatting ([inet_ntop]) and the clock ([gettimestamp]) are
      inputs of the handlers: the formatted address string and the two
      timestamps are passed in.
    - Logging ([logg]) has no effect on the modelled state.
    - [enable_thread_lock] / [disable_thread_lock] are recorded in a
      history of mutex operations carried by the state. *)

From Stdlib Require Import ZArith String Ascii Bool Lia.
From stdpp Require Import base list strings.

Local Open Scope string_scope.
Local Open Scope list_scope.
Local Open Scope Z_scope.

(** ** C strings *)

(** [tolower] on one character (ASCII letters only). *)
Definition tolower (c : ascii) : ascii :=
  let n := N_of_ascii c in
  if ((65 <=? n) && (n <=? 90))%N then ascii_of_N (n + 32) else c.

(** [strtolower]: lower-cases a whole string. *)
Fixpoint strtolower (s : string) : string :=
  match s with
  | EmptyString => EmptyString
  | String c s' => String (tolower c) (strtolower s')
  end.

(** [strstr(hay, needle) != NULL]. *)
Fixpoint strstr (hay needle : string) : bool :=
  if String.prefix needle hay then true
  else match hay with
       | EmptyString => false
       | String _ hay' => strstr hay' needle
       end.

(** [strlen]. *)
Definition strlen (s : string) : Z := Z.of_nat (String.length s).

(** ** Arrays indexed by a C [int] *)

Section Arrays.
Context {A : Type}.

(** [a[i]] as an rvalue; [d] stands for the contents of memory outside
    the array. *)
Definition aget (d : A) (a : list A) (i : Z) : A :=
  if i <? 0 then d else default d (a !! Z.to_nat i).

(** [a[i] = f(a[i])]: an in-place update of an existing slot. *)
Definition aupd (f : A -> A) (i : Z) (a : list A) : list A :=
  if i <? 0 then a else alter f (Z.to_nat i) a.

(** [a[i] = v] after [memory_check] made room for slot [i]: slot
    [length a] is the first free one. *)
Definition astore (i : Z) (v : A) (a : list A) : list A :=
  if i <? 0 then a
  else if (Z.to_nat i <? length a)%nat then <[Z.to_nat i := v]> a
  else if (Z.to_nat i =? length a)%nat then a ++ [v]
  else a.
End Arrays.

(** ** Constants *)

(** Bit positions of dnsmasq's flag word.  dnsmasq.h is not part of the
    sources at hand; [print_flags] pairs bit [i] with [flagnames[i]], so the
    positions are read off the [flagnames] table. *)
Definition flagnames : list string :=
  [ "F_IMMORTAL "; "F_NAMEP "; "F_REVERSE "; "F_FORWARD "; "F_DHCP ";
    "F_NEG "; "F_HOSTS "; "F_IPV4 "; "F_IPV6 "; "F_BIGNAME ";
    "F_NXDOMAIN "; "F_CNAME "; "F_DNSKEY "; "F_CONFIG "; "F_DS ";
    "F_DNSSECOK "; "F_UPSTREAM "; "F_RRNAME "; "F_SERVER "; "F_QUERY ";
    "F_NOERR "; "F_AUTH "; "F_DNSSEC "; "F_KEYTAG "; "F_SECSTAT ";
    "F_NO_RR "; "F_IPSET "; "F_NOEXTRA " ].

Definition F_IMMORTAL : Z := Z.shiftl 1 0.
Definition F_NAMEP    : Z := Z.shiftl 1 1.
Definition F_FORWARD  : Z := Z.shiftl 1 3.
Definition F_DHCP     : Z := Z.shiftl 1 4.
Definition F_NEG      : Z := Z.shiftl 1 5.
Definition F_HOSTS    : Z := Z.shiftl 1 6.
Definition F_IPV4     : Z := Z.shiftl 1 7.
Definition F_NXDOMAIN : Z := Z.shiftl 1 10.
Definition F_CNAME    : Z := Z.shiftl 1 11.
Definition F_CONFIG   : Z := Z.shiftl 1 13.

(** [flags & F] used as a C truth value. *)
Definition flag_set (flags F : Z) : bool := negb (Z.land flags F =? 0).

(** The enumerations of FTL.h (the header is not part of the sources at
    hand; the constructors are the names the handlers use). *)
Inductive query_type : Set :=
  | TYPE_A | TYPE_AAAA | TYPE_ANY | TYPE_SRV | TYPE_SOA | TYPE_PTR | TYPE_TXT.

(** The numeric value of a query type; the handlers index the per-type
    arrays with [querytype-1]. *)
Definition type_code (t : query_type) : Z :=
  match t with
  | TYPE_A => 1 | TYPE_AAAA => 2 | TYPE_ANY => 3 | TYPE_SRV => 4
  | TYPE_SOA => 5 | TYPE_PTR => 6 | TYPE_TXT => 7
  end.

Inductive query_status : Set :=
  | QUERY_UNKNOWN | QUERY_GRAVITY | QUERY_FORWARDED | QUERY_CACHE
  | QUERY_WILDCARD | QUERY_BLACKLIST.

Inductive reply_type : Set :=
  | REPLY_UNKNOWN | REPLY_NODATA | REPLY_NXDOMAIN | REPLY_CNAME | REPLY_IP.

Inductive dnssec_status : Set :=
  | DNSSEC_UNSPECIFIED | DNSSEC_SECURE | DNSSEC_INSECURE | DNSSEC_BOGUS.

(** The validation result dnsmasq hands to [FTL_dnssec]. *)
Inductive dnsmasq_stat : Set :=
  | STAT_SECURE | STAT_INSECURE | STAT_OTHER.

Definition PRIVACY_HIDE_DOMAINS : Z := 1.
Definition PRIVACY_HIDE_DOMAINS_CLIENTS : Z := 2.
Definition PRIVACY_MAXIMUM : Z := 3.

#[global] Instance query_type_eq_dec : EqDecision query_type.
Proof. solve_decision. Defined.
#[global] Instance query_status_eq_dec : EqDecision query_status.
Proof. solve_decision. Defined.
#[global] Instance reply_type_eq_dec : EqDecision reply_type.
Proof. solve_decision. Defined.

(** ** The shared data structures *)

Record ConfigStruct : Set := mkConfig {
  analyze_AAAA : bool;
  privacylevel : Z
}.

Record countersStruct : Set := mkCounters {
  counters_queries : Z;
  counters_unknown : Z;
  counters_cached : Z;
  counters_blocked : Z;
  counters_wildcardblocked : Z;
  counters_forwardedqueries : Z;
  counters_reply_NODATA : Z;
  counters_reply_NXDOMAIN : Z;
  counters_reply_CNAME : Z;
  counters_reply_IP : Z;
  counters_gravity : Z;
  counters_querytype : list Z
}.

Record queriesDataStruct : Set := mkQuery {
  q_timestamp : Z;
  q_type : option query_type;
  q_status : query_status;
  q_domainID : Z;
  q_clientID : Z;
  q_forwardID : Z;
  q_timeidx : Z;
  q_db : bool;
  q_id : Z;
  q_complete : bool;
  q_private : bool;
  q_ttl : Z
}.

Record domainsDataStruct : Set := mkDomain {
  d_domain : string;
  d_blockedcount : Z;
  d_wildcard : bool;
  d_IPv4 : option string;
  d_IPv6 : option string;
  d_dnssec : dnssec_status;
  d_reply : list reply_type
}.

Record overTimeDataStruct : Set := mkOverTime {
  ot_timestamp : Z;
  ot_total : Z;
  ot_blocked : Z;
  ot_cached : Z;
  ot_querytypedata : list Z;
  ot_clientdata : list Z
}.

Inductive lock_op : Set := LOCK | UNLOCK.

Record State : Set := mkState {
  config : ConfigStruct;
  counters : countersStruct;
  queries : list queriesDataStruct;
  domains : list domainsDataStruct;
  clients : list string;
  forwarded : list string;
  overTime : list overTimeDataStruct;
  threadlock : list lock_op
}.

(** Zeroed memory. *)
Definition zero_query : queriesDataStruct :=
  mkQuery 0 None QUERY_UNKNOWN 0 0 0 0 false 0 false false 0.
Definition zero_domain : domainsDataStruct :=
  mkDomain EmptyString 0 false None None DNSSEC_UNSPECIFIED [REPLY_UNKNOWN; REPLY_UNKNOWN].
Definition zero_overTime : overTimeDataStruct :=
  mkOverTime 0 0 0 0 (replicate 7 0) [].

Definition initial_state (cfg : ConfigStruct) : State :=
  mkState cfg (mkCounters 0 0 0 0 0 0 0 0 0 0 0 (replicate 7 0)) [] [] [] [] [] [].

(** ** Field updates (C assignments to one member) *)

Definition upd_counters (f : countersStruct -> countersStruct) (s : State) : State :=
  mkState (config s) (f (counters s)) (queries s) (domains s) (clients s)
          (forwarded s) (overTime s) (threadlock s).
Definition upd_queries (f : list queriesDataStruct -> list queriesDataStruct)
    (s : State) : State :=
  mkState (config s) (counters s) (f (queries s)) (domains s) (clients s)
          (forwarded s) (overTime s) (threadlock s).
Definition upd_domains (f : list domainsDataStruct -> list domainsDataStruct)
    (s : State) : State :=
  mkState (config s) (counters s) (queries s) (f (domains s)) (clients s)
          (forwarded s) (overTime s) (threadlock s).
Definition upd_clients (f : list string -> list string) (s : State) : State :=
  mkState (config s) (counters s) (queries s) (domains s) (f (clients s))
          (forwarded s) (overTime s) (threadlock s).
Definition upd_forwarded (f : list string -> list string) (s : State) : State :=
  mkState (config s) (counters s) (queries s) (domains s) (clients s)
          (f (forwarded s)) (overTime s) (threadlock s).
Definition upd_overTime (f : list overTimeDataStruct -> list overTimeDataStruct)
    (s : State) : State :=
  mkState (config s) (counters s) (queries s) (domains s) (clients s)
          (forwarded s) (f (overTime s)) (threadlock s).
Definition upd_threadlock (f : list lock_op -> list lock_op) (s : State) : State :=
  mkState (config s) (counters s) (queries s) (domains s) (clients s)
          (forwarded s) (overTime s) (f (threadlock s)).
Definition set_privacylevel (l : Z) (s : State) : State :=
  mkState (mkConfig (analyze_AAAA (config s)) l) (counters s) (queries s)
          (domains s) (clients s) (forwarded s) (overTime s) (threadlock s).

(** [counters.<member> += n] *)
Definition add_queries (n : Z) (c : countersStruct) : countersStruct :=
  mkCounters (counters_queries c + n) (counters_unknown c) (counters_cached c)
    (counters_blocked c) (counters_wildcardblocked c) (counters_forwardedqueries c)
    (counters_reply_NODATA c) (counters_reply_NXDOMAIN c) (counters_reply_CNAME c)
    (counters_reply_IP c) (counters_gravity c) (counters_querytype c).
Definition add_unknown (n : Z) (c : countersStruct) : countersStruct :=
  mkCounters (counters_queries c) (counters_unknown c + n) (counters_cached c)
    (counters_blocked c) (counters_wildcardblocked c) (counters_forwardedqueries c)
    (counters_reply_NODATA c) (counters_reply_NXDOMAIN c) (counters_reply_CNAME c)
    (counters_reply_IP c) (counters_gravity c) (counters_querytype c).
Definition add_cached (n : Z) (c : countersStruct) : countersStruct :=
  mkCounters (counters_queries c) (counters_unknown c) (counters_cached c + n)
    (counters_blocked c) (counters_wildcardblocked c) (counters_forwardedqueries c)
    (counters_reply_NODATA c) (counters_reply_NXDOMAIN c) (counters_reply_CNAME c)
    (counters_reply_IP c) (counters_gravity c) (counters_querytype c).
Definition add_blocked (n : Z) (c : countersStruct) : countersStruct :=
  mkCounters (counters_queries c) (counters_unknown c) (counters_cached c)
    (counters_blocked c + n) (counters_wildcardblocked c) (counters_forwardedqueries c)
    (counters_reply_NODATA c) (counters_reply_NXDOMAIN c) (counters_reply_CNAME c)
    (counters_reply_IP c) (counters_gravity c) (counters_querytype c).
Definition add_wildcardblocked (n : Z) (c : countersStruct) : countersStruct :=
  mkCounters (counters_queries c) (counters_unknown c) (counters_cached c)
    (counters_blocked c) (counters_wildcardblocked c + n) (counters_forwardedqueries c)
    (counters_reply_NODATA c) (counters_reply_NXDOMAIN c) (counters_reply_CNAME c)
    (counters_reply_IP c) (counters_gravity c) (counters_querytype c).
Definition add_forwardedqueries (n : Z) (c : countersStruct) : countersStruct :=
  mkCounters (counters_queries c) (counters_unknown c) (counters_cached c)
    (counters_blocked c) (counters_wildcardblocked c) (counters_forwardedqueries c + n)
    (counters_reply_NODATA c) (counters_reply_NXDOMAIN c) (counters_reply_CNAME c)
    (counters_reply_IP c) (counters_gravity c) (counters_querytype c).
Definition add_reply_NODATA (n : Z) (c : countersStruct) : countersStruct :=
  mkCounters (counters_queries c) (counters_unknown c) (counters_cached c)
    (counters_blocked c) (counters_wildcardblocked c) (counters_forwardedqueries c)
    (counters_reply_NODATA c + n) (counters_reply_NXDOMAIN c) (counters_reply_CNAME c)
    (counters_reply_IP c) (counters_gravity c) (counters_querytype c).
Definition add_reply_NXDOMAIN (n : Z) (c : countersStruct) : countersStruct :=
  mkCounters (counters_queries c) (counters_unknown c) (counters_cached c)
    (counters_blocked c) (counters_wildcardblocked c) (counters_forwardedqueries c)
    (counters_reply_NODATA c) (counters_reply_NXDOMAIN c + n) (counters_reply_CNAME c)
    (counters_reply_IP c) (counters_gravity c) (counters_querytype c).
Definition add_reply_CNAME (n : Z) (c : countersStruct) : countersStruct :=
  mkCounters (counters_queries c) (counters_unknown c) (counters_cached c)
    (counters_blocked c) (counters_wildcardblocked c) (counters_forwardedqueries c)
    (counters_reply_NODATA c) (counters_reply_NXDOMAIN c) (counters_reply_CNAME c + n)
    (counters_reply_IP c) (counters_gravity c) (counters_querytype c).
Definition add_reply_IP (n : Z) (c : countersStruct) : countersStruct :=
  mkCounters (counters_queries c) (counters_unknown c) (counters_cached c)
    (counters_blocked c) (counters_wildcardblocked c) (counters_forwardedqueries c)
    (counters_reply_NODATA c) (counters_reply_NXDOMAIN c) (counters_reply_CNAME c)
    (counters_reply_IP c + n) (counters_gravity c) (counters_querytype c).
Definition upd_gravity (f : Z -> Z) (c : countersStruct) : countersStruct :=
  mkCounters (counters_queries c) (counters_unknown c) (counters_cached c)
    (counters_blocked c) (counters_wildcardblocked c) (counters_forwardedqueries c)
    (counters_reply_NODATA c) (counters_reply_NXDOMAIN c) (counters_reply_CNAME c)
    (counters_reply_IP c) (f (counters_gravity c)) (counters_querytype c).
Definition upd_querytype (f : list Z -> list Z) (c : countersStruct) : countersStruct :=
  mkCounters (counters_queries c) (counters_unknown c) (counters_cached c)
    (counters_blocked c) (counters_wildcardblocked c) (counters_forwardedqueries c)
    (counters_reply_NODATA c) (counters_reply_NXDOMAIN c) (counters_reply_CNAME c)
    (counters_reply_IP c) (counters_gravity c) (f (counters_querytype c)).

(** [queries[i].<member> = v] *)
Definition set_status (v : query_status) (q : queriesDataStruct) : queriesDataStruct :=
  mkQuery (q_timestamp q) (q_type q) v (q_domainID q) (q_clientID q) (q_forwardID q)
          (q_timeidx q) (q_db q) (q_id q) (q_complete q) (q_private q) (q_ttl q).
Definition set_complete (v : bool) (q : queriesDataStruct) : queriesDataStruct :=
  mkQuery (q_timestamp q) (q_type q) (q_status q) (q_domainID q) (q_clientID q)
          (q_forwardID q) (q_timeidx q) (q_db q) (q_id q) v (q_private q) (q_ttl q).
Definition set_forwardID (v : Z) (q : queriesDataStruct) : queriesDataStruct :=
  mkQuery (q_timestamp q) (q_type q) (q_status q) (q_domainID q) (q_clientID q) v
          (q_timeidx q) (q_db q) (q_id q) (q_complete q) (q_private q) (q_ttl q).
Definition set_ttl (v : Z) (q : queriesDataStruct) : queriesDataStruct :=
  mkQuery (q_timestamp q) (q_type q) (q_status q) (q_domainID q) (q_clientID q)
          (q_forwardID q) (q_timeidx q) (q_db q) (q_id q) (q_complete q) (q_private q) v.

(** [domains[i].<member> = v] *)
Definition add_blockedcount (n : Z) (d : domainsDataStruct) : domainsDataStruct :=
  mkDomain (d_domain d) (d_blockedcount d + n) (d_wildcard d) (d_IPv4 d) (d_IPv6 d)
           (d_dnssec d) (d_reply d).
Definition set_wildcard (v : bool) (d : domainsDataStruct) : domainsDataStruct :=
  mkDomain (d_domain d) (d_blockedcount d) v (d_IPv4 d) (d_IPv6 d) (d_dnssec d) (d_reply d).
Definition set_IPv4 (v : option string) (d : domainsDataStruct) : domainsDataStruct :=
  mkDomain (d_domain d) (d_blockedcount d) (d_wildcard d) v (d_IPv6 d) (d_dnssec d) (d_reply d).
Definition set_IPv6 (v : option string) (d : domainsDataStruct) : domainsDataStruct :=
  mkDomain (d_domain d) (d_blockedcount d) (d_wildcard d) (d_IPv4 d) v (d_dnssec d) (d_reply d).
Definition set_dnssec (v : dnssec_status) (d : domainsDataStruct) : domainsDataStruct :=
  mkDomain (d_domain d) (d_blockedcount d) (d_wildcard d) (d_IPv4 d) (d_IPv6 d) v (d_reply d).
Definition set_reply (replyID : nat) (v : reply_type) (d : domainsDataStruct)
    : domainsDataStruct :=
  mkDomain (d_domain d) (d_blockedcount d) (d_wildcard d) (d_IPv4 d) (d_IPv6 d)
           (d_dnssec d) (<[replyID := v]> (d_reply d)).

(** [overTime[i].<member> += n] *)
Definition add_total (n : Z) (o : overTimeDataStruct) : overTimeDataStruct :=
  mkOverTime (ot_timestamp o) (ot_total o + n) (ot_blocked o) (ot_cached o)
             (ot_querytypedata o) (ot_clientdata o).
Definition add_ot_blocked (n : Z) (o : overTimeDataStruct) : overTimeDataStruct :=
  mkOverTime (ot_timestamp o) (ot_total o) (ot_blocked o + n) (ot_cached o)
             (ot_querytypedata o) (ot_clientdata o).
Definition add_ot_cached (n : Z) (o : overTimeDataStruct) : overTimeDataStruct :=
  mkOverTime (ot_timestamp o) (ot_total o) (ot_blocked o) (ot_cached o + n)
             (ot_querytypedata o) (ot_clientdata o).
Definition upd_querytypedata (f : list Z -> list Z) (o : overTimeDataStruct)
    : overTimeDataStruct :=
  mkOverTime (ot_timestamp o) (ot_total o) (ot_blocked o) (ot_cached o)
             (f (ot_querytypedata o)) (ot_clientdata o).
Definition upd_clientdata (f : list Z -> list Z) (o : overTimeDataStruct)
    : overTimeDataStruct :=
  mkOverTime (ot_timestamp o) (ot_total o) (ot_blocked o) (ot_cached o)
             (ot_querytypedata o) (f (ot_clientdata o)).

(** [queries[i]] read from the state. *)
Definition query_at (s : State) (i : Z) : queriesDataStruct :=
  aget zero_query (queries s) i.
Definition domain_at (s : State) (i : Z) : domainsDataStruct :=
  aget zero_domain (domains s) i.
Definition overTime_at (s : State) (i : Z) : overTimeDataStruct :=
  aget zero_overTime (overTime s) i.

(** ** The mutex *)

Definition enable_thread_lock (s : State) : State :=
  upd_threadlock (fun h => h ++ [LOCK]) s.
Definition disable_thread_lock (s : State) : State :=
  upd_threadlock (fun h => h ++ [UNLOCK]) s.

(** ** Collaborators that live outside dnsmasq_interface.c *)

(** Position of the first element satisfying [p], counted from [i]. *)
Fixpoint find_index {A : Type} (p : A -> bool) (l : list A) (i : Z) : option Z :=
  match l with
  | [] => None
  | x :: l' => if p x then Some i else find_index p l' (i + 1)
  end.

Definition new_domain (domain : string) : domainsDataStruct :=
  mkDomain domain 0 false None None DNSSEC_UNSPECIFIED [REPLY_UNKNOWN; REPLY_UNKNOWN].

(** Modelled from the spec: [findDomainID] is defined outside
    dnsmasq_interface.c.  It is the interning of section 4.1
    ([internDomain]): the ID of a known domain string is its position in the
    table; an unknown string gets a new entry at the end of the table. *)
Definition findDomainID (domain : string) (s : State) : Z * State :=
  match find_index (fun d => String.eqb (d_domain d) domain) (domains s) 0 with
  | Some i => (i, s)
  | None => (Z.of_nat (length (domains s)),
             upd_domains (fun l => l ++ [new_domain domain]) s)
  end.

(** Modelled from the spec: [findClientID] is defined outside
    dnsmasq_interface.c; the interning of section 4.1 ([internClient]). *)
Definition findClientID (client : string) (s : State) : Z * State :=
  match find_index (String.eqb client) (clients s) 0 with
  | Some i => (i, s)
  | None => (Z.of_nat (length (clients s)), upd_clients (fun l => l ++ [client]) s)
  end.

(** Modelled from the spec: [findForwardID] is defined outside
    dnsmasq_interface.c; the interning of section 4.1 ([internForward] with
    its [createIfMissing] switch).  [-1] stands for the absent ID. *)
Definition findForwardID (forward : string) (createIfMissing : bool) (s : State)
    : Z * State :=
  match find_index (String.eqb forward) (forwarded s) 0 with
  | Some i => (i, s)
  | None =>
      if createIfMissing
      then (Z.of_nat (length (forwarded s)), upd_forwarded (fun l => l ++ [forward]) s)
      else (-1, s)
  end.

Definition bucket_width : Z := 600.

Definition new_overTime (timestamp : Z) : overTimeDataStruct :=
  mkOverTime timestamp 0 0 0 (replicate 7 0) [].

(** Modelled from the spec: [findOverTimeID] is defined outside
    dnsmasq_interface.c.  It is the time bucketer of section 4.2
    ([bucketFor]): a timestamp that has a bucket yields its index; a
    timestamp beyond the last known bucket appends fixed-width buckets up
    to and including its own and yields the last index; a stale timestamp
    is clamped to the earliest bucket. *)
Definition findOverTimeID (overTimetimestamp : Z) (s : State) : Z * State :=
  match find_index (fun o => ot_timestamp o =? overTimetimestamp) (overTime s) 0 with
  | Some i => (i, s)
  | None =>
      match last (overTime s) with
      | None => (0, upd_overTime (fun _ => [new_overTime overTimetimestamp]) s)
      | Some o =>
          if ot_timestamp o <? overTimetimestamp then
            let n := Z.to_nat ((overTimetimestamp - ot_timestamp o + bucket_width - 1)
                               / bucket_width) in
            let fresh := map (fun k => new_overTime
                                (ot_timestamp o + bucket_width * Z.of_nat k))
                             (seq 1 n) in
            (Z.of_nat (length (overTime s) + n) - 1,
             upd_overTime (fun l => l ++ fresh) s)
          else (0, s)
      end
  end.

(** Modelled from the spec: [validate_access_oTcl] is defined outside
    dnsmasq_interface.c.  The per-client increments of a time bucket
    (section 3) exist for every client ID handed out: the bucket's
    [clientdata] is extended with zeros up to slot [clientID]. *)
Definition validate_access_oTcl (timeidx clientID : Z) (s : State) : State :=
  upd_overTime
    (aupd (upd_clientdata
             (fun cd => cd ++ replicate (Z.to_nat (clientID + 1) - length cd)%nat 0))
          timeidx) s.

(** Modelled from the spec: [get_privacy_level] is defined outside
    dnsmasq_interface.c.  The privacy-level query of section 6 returns the
    current threshold [level], which the handler then reads from [config]. *)
Definition get_privacy_level (level : Z) (s : State) : State :=
  set_privacylevel level s.

(** ** Lookup of a query by dnsmasq's ID *)

(** The loop [for(i=0; i<counters.queries; i++) if(queries[i].id == id)
    { ...; found = true; break; }]: [fuel] is the number of iterations left
    and the result is the index at which the loop breaks. *)
Fixpoint scan_queries (id : Z) (qs : list queriesDataStruct) (fuel : nat) (i : Z)
    : option Z :=
  match fuel with
  | O => None
  | S fuel' =>
      if q_id (aget zero_query qs i) =? id then Some i
      else scan_queries id qs fuel' (i + 1)
  end.

Definition find_query (id : Z) (s : State) : option Z :=
  scan_queries id (queries s) (Z.to_nat (counters_queries (counters s))) 0.

(** ** save_reply_type, storeIP, print_flags *)

Definition save_reply_type (flags : Z) (queryID : Z) (s : State) : State :=
  let domainID := q_domainID (query_at s queryID) in
  let replyID : nat :=
    if bool_decide (q_type (query_at s queryID) = Some TYPE_A) then 0%nat else 1%nat in
  if flag_set flags F_NEG then
    if flag_set flags F_NXDOMAIN then
      let s := upd_domains (aupd (set_reply replyID REPLY_NXDOMAIN) domainID) s in
      upd_counters (add_reply_NXDOMAIN 1) s
    else
      let s := upd_domains (aupd (set_reply replyID REPLY_NODATA) domainID) s in
      upd_counters (add_reply_NODATA 1) s
  else if flag_set flags F_CNAME then
    let s := upd_domains (aupd (set_reply replyID REPLY_CNAME) domainID) s in
    upd_counters (add_reply_CNAME 1) s
  else
    let s := upd_domains (aupd (set_reply replyID REPLY_IP) domainID) s in
    upd_counters (add_reply_IP 1) s.

Definition storeIP (i : Z) (ip : string) (s : State) : State :=
  let domainID := q_domainID (query_at s i) in
  if bool_decide (q_type (query_at s i) = Some TYPE_A) then
    match d_IPv4 (domain_at s domainID) with
    | Some old =>
        if negb (String.eqb old ip)
        then upd_domains (aupd (set_IPv4 (Some ip)) domainID) s
        else s
    | None => upd_domains (aupd (set_IPv4 (Some ip)) domainID) s
    end
  else if bool_decide (q_type (query_at s i) = Some TYPE_AAAA) then
    match d_IPv6 (domain_at s domainID) with
    | Some old =>
        if negb (String.eqb old ip)
        then upd_domains (aupd (set_IPv6 (Some ip)) domainID) s
        else s
    | None => upd_domains (aupd (set_IPv6 (Some ip)) domainID) s
    end
  else s.

(** The loop of [print_flags], [i] running up to [sizeof(flags)*8 = 32]:
    [None] is a read of [flagnames] outside its entries, [Some flagstr] the
    decoded string. *)
Fixpoint print_flags_loop (fuel : nat) (i : Z) (flags : Z) (flagstr : string)
    : option string :=
  match fuel with
  | O => Some flagstr
  | S fuel' =>
      if flag_set flags (Z.shiftl 1 i) then
        match flagnames !! Z.to_nat i with
        | Some nm => print_flags_loop fuel' (i + 1) flags (flagstr +:+ nm)
        | None => None
        end
      else print_flags_loop fuel' (i + 1) flags flagstr
  end.

Definition print_flags (flags : Z) : option string :=
  print_flags_loop 32 0 flags EmptyString.

(** ** The event handlers *)

(** The chain of [strcmp(types, ...)] tests of [FTL_new_query]. *)
Definition querytype_of (types : string) : option query_type :=
  if String.eqb types "query[A]" then Some TYPE_A
  else if String.eqb types "query[AAAA]" then Some TYPE_AAAA
  else if String.eqb types "query[ANY]" then Some TYPE_ANY
  else if String.eqb types "query[SRV]" then Some TYPE_SRV
  else if String.eqb types "query[SOA]" then Some TYPE_SOA
  else if String.eqb types "query[PTR]" then Some TYPE_PTR
  else if String.eqb types "query[TXT]" then Some TYPE_TXT
  else None.

(** [addr] is the client address as [inet_ntop] prints it; [level] is what
    [get_privacy_level] finds. *)
Definition FTL_new_query (flags : Z) (name : string) (addr : string)
    (types : string) (id : Z) (querytimestamp overTimetimestamp : Z) (level : Z)
    (s : State) : State :=
  let s := enable_thread_lock s in
  if negb (analyze_AAAA (config s)) && String.eqb types " query[AAAA]" then
    disable_thread_lock s
  else
    (* memory_check(QUERIES) *)
    let queryID := counters_queries (counters s) in
    let '(timeidx, s) := findOverTimeID overTimetimestamp s in
    let domain := strtolower name in
    if String.eqb domain "pi.hole" then disable_thread_lock s
    else
      let s := get_privacy_level level s in
      let domain :=
        if PRIVACY_HIDE_DOMAINS <=? privacylevel (config s) then "hidden" else domain in
      let client := strtolower addr in
      let client :=
        if PRIVACY_HIDE_DOMAINS_CLIENTS <=? privacylevel (config s)
        then "0.0.0.0" else client in
      match querytype_of types with
      | None => disable_thread_lock s
      | Some querytype =>
          let s := upd_overTime
                     (aupd (upd_querytypedata (aupd Z.succ (type_code querytype - 1)))
                           timeidx) s in
          let s := upd_counters (upd_querytype (aupd Z.succ (type_code querytype - 1))) s in
          if negb (bool_decide (querytype = TYPE_A))
             && negb (bool_decide (querytype = TYPE_AAAA))
          then disable_thread_lock s
          else
            let '(domainID, s) := findDomainID domain s in
            let '(clientID, s) := findClientID client s in
            (* the source leaves forwardID unwritten; a new slot holds 0 *)
            let s := upd_queries
                       (astore queryID
                          {| q_timestamp := querytimestamp;
                             q_type := Some querytype;
                             q_status := QUERY_UNKNOWN;
                             q_domainID := domainID;
                             q_clientID := clientID;
                             q_forwardID := 0;
                             q_timeidx := timeidx;
                             q_db := false;
                             q_id := id;
                             q_complete := false;
                             q_private :=
                               (privacylevel (config s) =? PRIVACY_MAXIMUM);
                             q_ttl := 0 |}) s in
            let s := upd_counters (add_queries 1) s in
            let s := upd_counters (add_unknown 1) s in
            let s := upd_overTime (aupd (add_total 1) timeidx) s in
            let s := validate_access_oTcl timeidx clientID s in
            let s := upd_overTime
                       (aupd (upd_clientdata (aupd Z.succ clientID)) timeidx) s in
            disable_thread_lock s
      end.

(** The body of the [if(queries[i].id == id)] inside the loop of
    [FTL_forwarded], run at the index where the loop breaks. *)
Definition forwarded_match (i : Z) (s : State) : State :=
  let s :=
    if bool_decide (q_status (query_at s i) = QUERY_CACHE) then
      let s := upd_counters (add_cached (-1)) s in
      let s := upd_overTime (aupd (add_ot_cached (-1)) (q_timeidx (query_at s i))) s in
      let s := upd_counters (add_unknown 1) s in
      upd_queries (aupd (set_complete false) i) s
    else s in
  upd_queries (aupd (set_status QUERY_FORWARDED) i) s.

(** The part of [FTL_forwarded] after the loop, once [found] is true. *)
Definition forwarded_finish (forward : string) (i : Z) (s : State) : State :=
  if q_complete (query_at s i) then disable_thread_lock s
  else
    let '(forwardID, s) := findForwardID forward true s in
    let s := upd_queries (aupd (set_forwardID forwardID) i) s in
    let s :=
      if negb (q_complete (query_at s i)) then
        let s := upd_counters (add_unknown (-1)) s in
        let s := upd_counters (add_forwardedqueries 1) s in
        upd_queries (aupd (set_complete true) i) s
      else s in
    disable_thread_lock s.

Definition FTL_forwarded (flags : Z) (name : string) (addr : string) (id : Z)
    (s : State) : State :=
  let s := enable_thread_lock s in
  let forward := strtolower addr in
  match find_query id s with
  | Some i => forwarded_finish forward i (forwarded_match i s)
  | None => disable_thread_lock s
  end.

Definition FTL_dnsmasq_reload (s : State) : State :=
  (* readWildcardsList() re-reads a list that is not part of this state *)
  upd_counters (upd_gravity (fun _ => 0)) s.

Definition FTL_read_hosts (filename : option string) (addr_count : Z) (s : State)
    : State :=
  let s := enable_thread_lock s in
  let s :=
    match filename with
    | Some f =>
        if strstr f "/gravity.list" || strstr f "/black.list"
        then upd_counters (upd_gravity (fun g => g + addr_count)) s
        else s
    | None => s
    end in
  disable_thread_lock s.

(** The test that guards [storeIP] in [FTL_reply] (local configuration
    branch) and in [FTL_cache]. *)
Definition exact_positive_answer (flags : Z) (dest name : string) (domainID : Z)
    (s : State) : bool :=
  negb (flag_set flags F_NEG) && negb (flag_set flags F_CNAME)
  && (2 <? strlen dest) && String.eqb (d_domain (domain_at s domainID)) name.

(** [detectStatus] is defined outside dnsmasq_interface.c and is a
    parameter of the handler; [addr] is [None] for a NULL address and
    otherwise the address as [inet_ntop] prints it; [flags] is an
    [unsigned short]. *)
Definition FTL_reply (detectStatus : string -> query_status) (flags : Z)
    (name : string) (addr : option string) (ttl : Z) (id : Z)
    (querytimestamp overTimetimestamp : Z) (s : State) : State :=
  let flags := flags `mod` 65536 in
  let s := enable_thread_lock s in
  let dest := match addr with Some a => a | None => EmptyString end in
  if flag_set flags F_CONFIG then
    match find_query id s with
    | None => disable_thread_lock s
    | Some i =>
        let s := upd_queries
                   (aupd (set_status
                            (detectStatus
                               (d_domain (domain_at s (q_domainID (query_at s i))))))
                         i) s in
        let s :=
          if negb (q_complete (query_at s i)) then
            let s := upd_counters (add_unknown (-1)) s in
            let '(timeidx, s) := findOverTimeID overTimetimestamp s in
            let domainID := q_domainID (query_at s i) in
            let s :=
              if bool_decide (q_status (query_at s i) = QUERY_WILDCARD) then
                let s := upd_counters (add_wildcardblocked 1) s in
                let s := upd_overTime (aupd (add_ot_blocked 1) timeidx) s in
                let s := upd_domains
                           (aupd (add_blockedcount 1) (q_domainID (query_at s i))) s in
                upd_domains (aupd (set_wildcard true) (q_domainID (query_at s i))) s
              else if bool_decide (q_status (query_at s i) = QUERY_CACHE) then
                let s := upd_counters (add_cached 1) s in
                upd_overTime (aupd (add_ot_cached 1) timeidx) s
              else s in
            let s := save_reply_type flags i s in
            let s :=
              if exact_positive_answer flags dest name domainID s
              then storeIP i dest s else s in
            let s := upd_queries (aupd (set_ttl ttl) i) s in
            upd_queries (aupd (set_complete true) i) s
          else s in
        disable_thread_lock s
    end
  else if flag_set flags F_FORWARD then
    match find_query id s with
    | None => disable_thread_lock s
    | Some i =>
        let domainID := q_domainID (query_at s i) in
        let s :=
          if String.eqb (d_domain (domain_at s domainID)) name then
            let s := save_reply_type flags i s in
            let s :=
              if negb (flag_set flags F_NEG) && negb (flag_set flags F_CNAME)
                 && (2 <? strlen dest)
              then storeIP i dest s else s in
            upd_queries (aupd (set_ttl ttl) i) s
          else s in
        disable_thread_lock s
    end
  else disable_thread_lock s.

(** The request type [FTL_cache] derives from the flags and the source
    [arg] ([None] for NULL). *)
Definition cache_requesttype (flags : Z) (arg : option string) : query_status :=
  if flag_set flags F_HOSTS then
    match arg with
    | Some a =>
        if strstr a "/gravity.list" then QUERY_GRAVITY
        else if strstr a "/black.list" then QUERY_BLACKLIST
        else QUERY_CACHE
    | None => QUERY_CACHE
    end
  else if flag_set flags F_NAMEP && flag_set flags F_DHCP then QUERY_CACHE
  else if flag_set flags F_FORWARD then QUERY_CACHE
  else QUERY_UNKNOWN.

Definition FTL_cache (flags : Z) (name : string) (addr : option string)
    (arg : option string) (ttl : Z) (id : Z)
    (querytimestamp overTimetimestamp : Z) (s : State) : State :=
  let s := enable_thread_lock s in
  let dest := match addr with Some a => a | None => EmptyString end in
  let domain := strtolower name in
  if String.eqb domain "pi.hole" then disable_thread_lock s
  else if (flag_set flags F_HOSTS && flag_set flags F_IMMORTAL)
          || (flag_set flags F_NAMEP && flag_set flags F_DHCP)
          || flag_set flags F_FORWARD
  then
    let requesttype := cache_requesttype flags arg in
    match find_query id s with
    | None => disable_thread_lock s
    | Some i =>
        let s := upd_queries (aupd (set_status requesttype) i) s in
        let domainID := q_domainID (query_at s i) in
        let s :=
          if negb (q_complete (query_at s i)) then
            let s := upd_counters (add_unknown (-1)) s in
            let '(timeidx, s) := findOverTimeID overTimetimestamp s in
            let s :=
              match requesttype with
              | QUERY_GRAVITY | QUERY_BLACKLIST =>
                  let s := upd_counters (add_blocked 1) s in
                  let s := upd_overTime (aupd (add_ot_blocked 1) timeidx) s in
                  upd_domains (aupd (add_blockedcount 1) domainID) s
              | QUERY_CACHE =>
                  let s := upd_counters (add_cached 1) s in
                  upd_overTime (aupd (add_ot_cached 1) timeidx) s
              | _ => s
              end in
            let s := save_reply_type flags i s in
            let s :=
              if exact_positive_answer flags dest name domainID s
              then storeIP i dest s else s in
            let s := upd_queries (aupd (set_ttl ttl) i) s in
            upd_queries (aupd (set_complete true) i) s
          else s in
        disable_thread_lock s
    end
  else disable_thread_lock s.

Definition FTL_dnssec (status : dnsmasq_stat) (id : Z) (s : State) : State :=
  let s := enable_thread_lock s in
  match find_query id s with
  | None => disable_thread_lock s
  | Some i =>
      let s :=
        match status with
        | STAT_SECURE =>
            upd_domains (aupd (set_dnssec DNSSEC_SECURE) (q_domainID (query_at s i))) s
        | STAT_INSECURE =>
            upd_domains (aupd (set_dnssec DNSSEC_INSECURE) (q_domainID (query_at s i))) s
        | STAT_OTHER =>
            upd_domains (aupd (set_dnssec DNSSEC_BOGUS) (q_domainID (query_at s i))) s
        end in
      disable_thread_lock s
  end.

(** ** Sequences of events *)

Inductive event : Type :=
  | EvNewQuery (flags : Z) (name addr types : string) (id : Z)
               (querytimestamp overTimetimestamp level : Z)
  | EvForwarded (flags : Z) (name addr : string) (id : Z)
  | EvReply (detectStatus : string -> query_status) (flags : Z) (name : string)
            (addr : option string) (ttl id querytimestamp overTimetimestamp : Z)
  | EvCache (flags : Z) (name : string) (addr arg : option string)
            (ttl id querytimestamp overTimetimestamp : Z)
  | EvDnssec (status : dnsmasq_stat) (id : Z)
  | EvReload
  | EvReadHosts (filename : option string) (addr_count : Z).

Definition handle (e : event) (s : State) : State :=
  match e with
  | EvNewQuery flags name addr types id qt ot level =>
      FTL_new_query flags name addr types id qt ot level s
  | EvForwarded flags name addr id => FTL_forwarded flags name addr id s
  | EvReply detect flags name addr ttl id qt ot =>
      FTL_reply detect flags name addr ttl id qt ot s
  | EvCache flags name addr arg ttl id qt ot =>
      FTL_cache flags name addr arg ttl id qt ot s
  | EvDnssec status id => FTL_dnssec status id s
  | EvReload => FTL_dnsmasq_reload s
  | EvReadHosts filename addr_count => FTL_read_hosts filename addr_count s
  end.

(** The state after the handlers ran for the events of [evs], in order. *)
Definition run (evs : list event) (s : State) : State :=
  fold_left (fun s e => handle e s) evs s.

(** The number of query records with [complete = true]. *)
Fixpoint completed_count (qs : list queriesDataStruct) : Z :=
  match qs with
  | [] => 0
  | q :: qs' => (if q_complete q then 1 else 0) + completed_count qs'
  end.

(** ** Notions used by the properties *)

(** The array holds exactly the records counted by [counters.queries]. *)
Definition queries_filled (s : State) : Prop :=
  Z.of_nat (length (queries s)) = counters_queries (counters s).

Definition example_config : ConfigStruct := mkConfig true 0.

(** One A query with ID 2 that was then answered from the cache. *)
Definition cached_state : State :=
  run [ EvNewQuery F_IPV4 "example.com" "10.0.0.1" "query[A]" 2 1000 900 0;
        EvCache F_FORWARD "example.com" (Some "1.2.3.4") None 60 2 1001 900 ]
      (initial_state example_config).

(** Two A queries that carry the same ID 7. *)
Definition shared_id_state : State :=
  run [ EvNewQuery F_IPV4 "a.example" "10.0.0.1" "query[A]" 7 1000 900 0;
        EvNewQuery F_IPV4 "b.example" "10.0.0.1" "query[A]" 7 1001 900 0 ]
      (initial_state example_config).

(** One A query with ID 1 that was forwarded, hence is complete. *)
Definition forwarded_state : State :=
  run [ EvNewQuery F_IPV4 "example.com" "10.0.0.1" "query[A]" 1 1000 900 0;
        EvForwarded F_IPV4 "example.com" "8.8.8.8" 1 ]
      (initial_state example_config).


(** The classification of section 4.4 in the spec's words: negative and
    NXDOMAIN gives NXDOMAIN, negative otherwise gives NODATA, the alias
    flag gives CNAME, anything else is an IP. *)
Definition classify_reply (flags : Z) : reply_type :=
  if flag_set flags F_NEG && flag_set flags F_NXDOMAIN then REPLY_NXDOMAIN
  else if flag_set flags F_NEG then REPLY_NODATA
  else if flag_set flags F_CNAME then REPLY_CNAME
  else REPLY_IP.

(** The global running counter of a reply kind. *)
Definition reply_counter (k : reply_type) (c : countersStruct) : Z :=
  match k with
  | REPLY_NODATA => counters_reply_NODATA c
  | REPLY_NXDOMAIN => counters_reply_NXDOMAIN c
  | REPLY_CNAME => counters_reply_CNAME c
  | REPLY_IP => counters_reply_IP c
  | REPLY_UNKNOWN => 0
  end.

(** The counters that are not per-reply-kind counters. *)
Definition accounting (c : countersStruct) :=
  (counters_queries c, counters_unknown c, counters_cached c, counters_blocked c,
   counters_wildcardblocked c, counters_forwardedqueries c, counters_gravity c,
   counters_querytype c).

(** A bucket nothing was counted in yet. *)
Definition fresh_bucket (o : overTimeDataStruct) : Prop :=
  ot_total o = 0 /\ ot_blocked o = 0 /\ ot_cached o = 0
  /\ ot_querytypedata o = replicate 7 0 /\ ot_clientdata o = [].

(** A record answered from the cache has been counted. *)
Definition cache_implies_complete (q : queriesDataStruct) : Prop :=
  q_status q = QUERY_CACHE -> q_complete q = true.

(** What holds between two handler invocations. *)
Record inv (s : State) : Prop := mkInv {
  inv_balance :
    counters_unknown (counters s) + completed_count (queries s)
    = counters_queries (counters s);
  inv_filled : queries_filled s;
  inv_cache : Forall cache_implies_complete (queries s)
}.

Definition b2z (b : bool) : Z := if b then 1 else 0.

(** The part of the state the invariant reads. *)
Definition qdata (s : State) : Z * Z * list queriesDataStruct :=
  (counters_queries (counters s), counters_unknown (counters s), queries s).

(** * Properties *)

#[global] Arguments aget : simpl never.
#[global] Arguments aupd : simpl never.
#[global] Arguments astore : simpl never.
#[global] Arguments findOverTimeID : simpl never.
#[global] Arguments findDomainID : simpl never.
#[global] Arguments findClientID : simpl never.
#[global] Arguments findForwardID : simpl never.
#[global] Arguments save_reply_type : simpl never.
#[global] Arguments storeIP : simpl never.
#[global] Arguments find_query : simpl never.
#[global] Arguments strtolower : simpl never.
#[global] Arguments strstr : simpl never.
#[global] Arguments query_at : simpl never.
#[global] Arguments domain_at : simpl never.
#[global] Arguments overTime_at : simpl never.

(** ** Arrays *)

Section ArrayFacts.
Context {A : Type}.
Implicit Types (l : list A) (f : A -> A) (i j : Z) (d : A).

Lemma aget_lookup d l i x :
  0 <= i -> l !! Z.to_nat i = Some x -> aget d l i = x.
Proof.
  intros Hi Hx. unfold aget.
  destruct (Z.ltb_spec i 0); [lia|]. now rewrite Hx.
Qed.

Lemma aget_in_range d l i :
  0 <= i < Z.of_nat (length l) -> l !! Z.to_nat i = Some (aget d l i).
Proof.
  intros Hi. destruct (lookup_lt_is_Some_2 l (Z.to_nat i)) as [x Hx]; [lia|].
  rewrite Hx. f_equal. symmetry. apply aget_lookup; [lia|done].
Qed.

Lemma aupd_length f i l : length (aupd f i l) = length l.
Proof. unfold aupd. destruct (i <? 0); [done|]. apply length_alter. Qed.

Lemma aget_aupd_eq d f i l :
  0 <= i < Z.of_nat (length l) -> aget d (aupd f i l) i = f (aget d l i).
Proof.
  intros Hi. pose proof (aget_in_range d l i Hi) as Hx.
  apply aget_lookup; [lia|]. unfold aupd.
  destruct (Z.ltb_spec i 0); [lia|].
  now rewrite list_lookup_alter_eq, Hx.
Qed.

Lemma aget_aupd_ne d f i j l : i <> j -> aget d (aupd f i l) j = aget d l j.
Proof.
  intros Hne. unfold aget, aupd.
  destruct (Z.ltb_spec j 0); [done|].
  destruct (Z.ltb_spec i 0); [done|].
  rewrite list_lookup_alter_ne; [done|lia].
Qed.

Lemma alter_twice f g (n : nat) l :
  alter f n (alter g n l) = alter (f ∘ g) n l.
Proof.
  revert n. induction l as [|x l IH]; intros [|n]; simpl; try done.
  f_equal. apply IH.
Qed.

Lemma aupd_compose f g i l : aupd f i (aupd g i l) = aupd (f ∘ g) i l.
Proof. unfold aupd. destruct (i <? 0); [done|]. apply alter_twice. Qed.

Lemma astore_end v l : astore (Z.of_nat (length l)) v l = l ++ [v].
Proof.
  unfold astore. destruct (Z.ltb_spec (Z.of_nat (length l)) 0); [lia|].
  rewrite Nat2Z.id, Nat.ltb_irrefl, Nat.eqb_refl. done.
Qed.
End ArrayFacts.

(** ** The lookup loop *)

Lemma scan_queries_Some id qs fuel i0 i :
  scan_queries id qs fuel i0 = Some i ->
  i0 <= i < i0 + Z.of_nat fuel
  /\ q_id (aget zero_query qs i) = id
  /\ forall j, i0 <= j < i -> q_id (aget zero_query qs j) <> id.
Proof.
  revert i0. induction fuel as [|fuel IH]; intros i0; simpl; [discriminate|].
  destruct (Z.eqb_spec (q_id (aget zero_query qs i0)) id) as [Heq|Hne].
  - intros [= <-]. split; [lia|]. split; [done|]. intros j Hj. lia.
  - intros Hs. destruct (IH _ Hs) as (Hr & Hid & Hlow).
    split; [lia|]. split; [done|].
    intros j Hj. destruct (Z.eq_dec j i0) as [->|]; [done|]. apply Hlow. lia.
Qed.

Lemma scan_queries_None id qs fuel i0 :
  scan_queries id qs fuel i0 = None ->
  forall j, i0 <= j < i0 + Z.of_nat fuel -> q_id (aget zero_query qs j) <> id.
Proof.
  revert i0. induction fuel as [|fuel IH]; intros i0; simpl; [lia|].
  destruct (Z.eqb_spec (q_id (aget zero_query qs i0)) id) as [Heq|Hne]; [discriminate|].
  intros Hs j Hj. destruct (Z.eq_dec j i0) as [->|]; [done|].
  apply (IH _ Hs). lia.
Qed.

(** [find_query] yields the lowest slot below [counters.queries] that
    carries the ID. *)
Lemma find_query_Some id s i :
  find_query id s = Some i ->
  0 <= i < counters_queries (counters s)
  /\ q_id (query_at s i) = id
  /\ forall j, 0 <= j < i -> q_id (query_at s j) <> id.
Proof.
  unfold find_query, query_at. intros H.
  destruct (scan_queries_Some _ _ _ _ _ H) as (Hr & Hid & Hlow).
  split; [lia|]. split; [done|]. intros j Hj. apply Hlow. lia.
Qed.

Lemma find_query_None id s :
  find_query id s = None ->
  forall j, 0 <= j < counters_queries (counters s) -> q_id (query_at s j) <> id.
Proof.
  unfold find_query, query_at. intros H j Hj.
  apply (scan_queries_None _ _ _ _ H). lia.
Qed.

(** ** print_flags *)

Lemma flag_set_bit (flags i : Z) :
  0 <= i -> flag_set flags (Z.shiftl 1 i) = Z.testbit flags i.
Proof.
  intros Hi. unfold flag_set. rewrite Z.shiftl_1_l.
  destruct (Z.testbit flags i) eqn:Hb.
  - destruct (Z.eqb_spec (Z.land flags (2 ^ i)) 0) as [H0|]; [|done].
    assert (Z.testbit (Z.land flags (2 ^ i)) i = true) as Ht.
    { rewrite Z.land_spec, Hb, Z.pow2_bits_eqb, Z.eqb_refl by lia. done. }
    rewrite H0, Z.bits_0 in Ht. discriminate.
  - destruct (Z.eqb_spec (Z.land flags (2 ^ i)) 0) as [|Hne]; [done|].
    exfalso. apply Hne. apply Z.bits_inj'. intros n Hn.
    rewrite Z.land_spec, Z.bits_0, Z.pow2_bits_eqb by lia.
    destruct (Z.eqb_spec i n) as [->|]; [now rewrite Hb|apply andb_false_r].
Qed.

Lemma flagnames_lookup_None (i : Z) :
  0 <= i -> flagnames !! Z.to_nat i = None <-> 28 <= i.
Proof.
  intros Hi. rewrite lookup_ge_None.
  change (length flagnames) with 28%nat. lia.
Qed.

Lemma print_flags_loop_None fuel i0 flags flagstr :
  0 <= i0 ->
  print_flags_loop fuel i0 flags flagstr = None <->
  exists j, i0 <= j < i0 + Z.of_nat fuel /\ 28 <= j /\ Z.testbit flags j = true.
Proof.
  revert i0 flagstr. induction fuel as [|fuel IH]; intros i0 flagstr Hi0.
  - simpl. split; [discriminate|]. intros (j & Hj & _). lia.
  - cbn [print_flags_loop]. rewrite flag_set_bit by done.
    destruct (Z.testbit flags i0) eqn:Hb.
    + destruct (flagnames !! Z.to_nat i0) as [nm|] eqn:Hnm.
      * rewrite IH by lia.
        assert (~ 28 <= i0) as Hlt.
        { intros H28. apply (flagnames_lookup_None i0 Hi0) in H28. congruence. }
        split; intros (j & Hj & H28 & Hbit); exists j; repeat split; try lia; done.
      * apply (flagnames_lookup_None i0 Hi0) in Hnm.
        split; [|done]. intros _. exists i0. repeat split; try lia; done.
    + rewrite IH by lia.
      split; intros (j & Hj & H28 & Hbit); exists j.
      * repeat split; try lia; done.
      * destruct (Z.eq_dec j i0) as [->|]; [congruence|].
        repeat split; try lia; done.
Qed.

(** C10: [flagnames] has 28 entries while [print_flags] visits all 32 bits
    of the flag word: the decoder reads [flagnames] out of bounds exactly
    when one of the bits 28, 29, 30, 31 is set; when all set bits are below
    position 28, every read is in bounds and the decoded string comes back. *)
Theorem print_flags_out_of_bounds (flags : Z) :
  length flagnames = 28%nat
  /\ ((exists i, 28 <= i < 32 /\ Z.testbit flags i = true) ->
      print_flags flags = None)
  /\ ((forall i, 28 <= i < 32 -> Z.testbit flags i = false) ->
      exists flagstr, print_flags flags = Some flagstr).
Proof.
  split; [reflexivity|]. unfold print_flags. split.
  - intros (i & Hi & Hb). apply print_flags_loop_None; [lia|].
    exists i. repeat split; try lia; done.
  - intros Hclear.
    destruct (print_flags_loop 32 0 flags EmptyString) as [flagstr|] eqn:Hp; [eauto|].
    apply print_flags_loop_None in Hp as (j & Hj & H28 & Hb); [|lia].
    rewrite Hclear in Hb by lia. discriminate.
Qed.

Lemma print_flags_out_of_bounds_witness :
  print_flags (Z.shiftl 1 28) = None
  /\ exists flagstr, print_flags (Z.shiftl 1 5 + Z.shiftl 1 10) = Some flagstr.
Proof.
  split.
  - apply (print_flags_out_of_bounds (Z.shiftl 1 28)).
    exists 28. split; [lia|reflexivity].
  - apply (print_flags_out_of_bounds (Z.shiftl 1 5 + Z.shiftl 1 10)).
    intros i Hi.
    assert (i = 28 \/ i = 29 \/ i = 30 \/ i = 31) as [->|[->|[->| ->]]] by lia;
      reflexivity.
Defined.

(** ** Reads of the query table through updates *)

Lemma query_at_frame s s' i : queries s' = queries s -> query_at s' i = query_at s i.
Proof. unfold query_at. now intros ->. Qed.

Lemma query_at_aupd f i s :
  0 <= i < Z.of_nat (length (queries s)) ->
  query_at (upd_queries (aupd f i) s) i = f (query_at s i).
Proof. intros Hi. unfold query_at. cbn. now apply aget_aupd_eq. Qed.

Lemma findForwardID_frame forward create s :
  let s' := (findForwardID forward create s).2 in
  counters s' = counters s /\ queries s' = queries s /\ domains s' = domains s
  /\ overTime s' = overTime s /\ clients s' = clients s /\ config s' = config s
  /\ threadlock s' = threadlock s.
Proof.
  unfold findForwardID. destruct (find_index _ _ _); [done|].
  destruct create; done.
Qed.

Lemma findOverTimeID_frame ts s :
  let s' := (findOverTimeID ts s).2 in
  counters s' = counters s /\ queries s' = queries s /\ domains s' = domains s
  /\ forwarded s' = forwarded s /\ clients s' = clients s /\ config s' = config s
  /\ threadlock s' = threadlock s.
Proof.
  unfold findOverTimeID. destruct (find_index _ _ _); [done|].
  destruct (last _); [|done]. destruct (_ <? _); done.
Qed.

Lemma findDomainID_frame domain s :
  let s' := (findDomainID domain s).2 in
  counters s' = counters s /\ queries s' = queries s /\ overTime s' = overTime s
  /\ forwarded s' = forwarded s /\ clients s' = clients s /\ config s' = config s
  /\ threadlock s' = threadlock s.
Proof. unfold findDomainID. destruct (find_index _ _ _); done. Qed.

Lemma findClientID_frame client s :
  let s' := (findClientID client s).2 in
  counters s' = counters s /\ queries s' = queries s /\ overTime s' = overTime s
  /\ forwarded s' = forwarded s /\ domains s' = domains s /\ config s' = config s
  /\ threadlock s' = threadlock s.
Proof. unfold findClientID. destruct (find_index _ _ _); done. Qed.

(** ** FTL_forwarded *)

(** C2: when [FTL_forwarded] matches a record whose status is CACHE, the
    matching step takes one off the global and the bucket's [cached],
    adds one to [unknown], clears [complete] and sets the status to
    FORWARDED; the rest of the same call takes one off [unknown], adds one
    to [forwardedqueries] and sets [complete].  After the call [cached] is
    one lower, [forwardedqueries] one higher and [complete] is true. *)
Theorem forwarded_after_cache flags name addr id s i :
  queries_filled s ->
  find_query id s = Some i ->
  q_status (query_at s i) = QUERY_CACHE ->
  0 <= q_timeidx (query_at s i) < Z.of_nat (length (overTime s)) ->
  let t := q_timeidx (query_at s i) in
  let m := forwarded_match i (enable_thread_lock s) in
  let s' := FTL_forwarded flags name addr id s in
  s' = forwarded_finish (strtolower addr) i m
  /\ counters_cached (counters m) = counters_cached (counters s) - 1
  /\ ot_cached (overTime_at m t) = ot_cached (overTime_at s t) - 1
  /\ counters_unknown (counters m) = counters_unknown (counters s) + 1
  /\ q_complete (query_at m i) = false
  /\ q_status (query_at m i) = QUERY_FORWARDED
  /\ counters_unknown (counters s') = counters_unknown (counters m) - 1
  /\ counters_forwardedqueries (counters s') = counters_forwardedqueries (counters s) + 1
  /\ q_complete (query_at s' i) = true
  /\ q_status (query_at s' i) = QUERY_FORWARDED
  /\ counters_cached (counters s') = counters_cached (counters s) - 1
  /\ ot_cached (overTime_at s' t) = ot_cached (overTime_at s t) - 1.
Proof.
  intros Hwf Hfind Hst Ht t m s'. unfold queries_filled in Hwf.
  destruct (find_query_Some _ _ _ Hfind) as (Hi & _ & _).
  assert (0 <= i < Z.of_nat (length (queries s))) as Hi' by lia.
  assert (s' = forwarded_finish (strtolower addr) i m) as Hs'.
  { subst s' m. unfold FTL_forwarded.
    change (find_query id (enable_thread_lock s)) with (find_query id s).
    now rewrite Hfind. }
  split; [done|].
  assert (m = upd_queries (aupd (set_status QUERY_FORWARDED) i)
               (upd_queries (aupd (set_complete false) i)
                 (upd_counters (add_unknown 1)
                   (upd_overTime (aupd (add_ot_cached (-1)) t)
                     (upd_counters (add_cached (-1)) (enable_thread_lock s)))))) as Hm.
  { subst m. unfold forwarded_match.
    change (query_at (enable_thread_lock s) i) with (query_at s i).
    rewrite Hst. rewrite bool_decide_eq_true_2 by done. reflexivity. }
  clearbody s' m.
  assert (query_at m i = set_status QUERY_FORWARDED (set_complete false (query_at s i))) as Hqm.
  { rewrite Hm. rewrite query_at_aupd. 2:{ cbn. rewrite aupd_length. exact Hi'. }
    rewrite query_at_aupd. 2:{ cbn. lia. } reflexivity. }
  assert (length (queries m) = length (queries s)) as Hlen.
  { rewrite Hm. cbn. now rewrite !aupd_length. }
  pose proof (findForwardID_frame (strtolower addr) true m) as Hfr.
  destruct (findForwardID (strtolower addr) true m) as [forwardID sf] eqn:Hff.
  cbn in Hfr. destruct Hfr as (Hfc & Hfq & _ & Hfo & _).
  assert (s' = disable_thread_lock
            (upd_queries (aupd (set_complete true) i)
              (upd_counters (add_forwardedqueries 1)
                (upd_counters (add_unknown (-1))
                  (upd_queries (aupd (set_forwardID forwardID) i) sf))))) as Hfin.
  { rewrite Hs'. unfold forwarded_finish. rewrite Hqm. cbn [q_complete set_status set_complete].
    rewrite Hff.
    rewrite query_at_aupd by (rewrite Hfq, Hlen; lia).
    rewrite (query_at_frame m sf) by done. rewrite Hqm. reflexivity. }
  assert (query_at s' i = set_complete true (set_forwardID forwardID (query_at m i))) as Hqs.
  { rewrite Hfin.
    change (query_at (disable_thread_lock ?x) i) with (query_at x i).
    rewrite query_at_aupd by (cbn; rewrite aupd_length, Hfq, Hlen; lia).
    f_equal.
    change (query_at (upd_counters ?f (upd_counters ?g ?x)) i) with (query_at x i).
    rewrite query_at_aupd by (rewrite Hfq, Hlen; lia).
    now rewrite (query_at_frame m sf). }
  assert (overTime_at m t = add_ot_cached (-1) (overTime_at s t)) as Hom.
  { rewrite Hm. unfold overTime_at. cbn. now apply aget_aupd_eq. }
  assert (overTime s' = overTime m) as Hos by (rewrite Hfin; cbn; done).
  assert (counters s' = add_forwardedqueries 1 (add_unknown (-1) (counters m))) as Hcs.
  { rewrite Hfin. cbn. now rewrite Hfc. }
  repeat split.
  - rewrite Hm; cbn; lia.
  - rewrite Hom; cbn; lia.
  - rewrite Hm; cbn; lia.
  - now rewrite Hqm.
  - now rewrite Hqm.
  - rewrite Hcs; cbn; lia.
  - rewrite Hcs, Hm; cbn; lia.
  - now rewrite Hqs.
  - now rewrite Hqs, Hqm.
  - rewrite Hcs, Hm; cbn; lia.
  - unfold overTime_at in *. rewrite Hos, Hom. cbn; lia.
Qed.

Lemma forwarded_after_cache_witness :
  let s := cached_state in
  let s' := FTL_forwarded F_IPV4 "example.com" "8.8.8.8" 2 s in
  q_status (query_at s 0) = QUERY_CACHE
  /\ counters_cached (counters s') = counters_cached (counters s) - 1
  /\ counters_forwardedqueries (counters s')
     = counters_forwardedqueries (counters s) + 1
  /\ q_complete (query_at s' 0) = true.
Proof.
  intros s s'.
  assert (queries_filled s) as H1 by reflexivity.
  assert (find_query 2 s = Some 0) as H2 by reflexivity.
  assert (q_status (query_at s 0) = QUERY_CACHE) as H3 by reflexivity.
  assert (0 <= q_timeidx (query_at s 0) < Z.of_nat (length (overTime s))) as H4
    by (vm_compute; split; [discriminate|reflexivity]).
  pose proof (forwarded_after_cache F_IPV4 "example.com" "8.8.8.8" 2 s 0 H1 H2 H3 H4)
    as (_ & _ & _ & _ & _ & _ & _ & Hf & Hc & _ & Hca & _).
  split; [exact H3|]. split; [exact Hca|]. split; [exact Hf|exact Hc].
Defined.

Lemma find_query_lowest id s i :
  0 <= i < counters_queries (counters s) ->
  q_id (query_at s i) = id ->
  (forall j, 0 <= j < i -> q_id (query_at s j) <> id) ->
  find_query id s = Some i.
Proof.
  intros Hi Hid Hlow. destruct (find_query id s) as [k|] eqn:Hf.
  - destruct (find_query_Some _ _ _ Hf) as (Hk & Hkid & Hklow).
    f_equal. destruct (Z.lt_trichotomy k i) as [Hlt|[Heq|Hgt]]; [|done|].
    + exfalso. apply (Hlow k); [lia|done].
    + exfalso. apply (Hklow i); [lia|done].
  - exfalso. apply (find_query_None _ _ Hf i Hi Hid).
Qed.

(** What [FTL_forwarded] does to the query table once the loop found slot
    [i]: only that slot is written. *)
Lemma forwarded_found_queries forward i s :
  exists f, queries (forwarded_finish forward i (forwarded_match i s))
            = aupd f i (queries s)
            /\ forall q, q_status (f q) = QUERY_FORWARDED.
Proof.
  assert (exists g, queries (forwarded_match i s) = aupd g i (queries s)
                    /\ forall q, q_status (g q) = QUERY_FORWARDED) as (g & Hg & Hgs).
  { unfold forwarded_match. destruct (bool_decide _).
    - exists (set_status QUERY_FORWARDED ∘ set_complete false). split; [|done].
      cbn. apply aupd_compose.
    - exists (set_status QUERY_FORWARDED). split; done. }
  unfold forwarded_finish.
  destruct (q_complete (query_at (forwarded_match i s) i)).
  { exists g. split; [exact Hg|exact Hgs]. }
  pose proof (findForwardID_frame forward true (forwarded_match i s)) as Hfr.
  destruct (findForwardID forward true (forwarded_match i s)) as [forwardID sf].
  cbv zeta in Hfr. cbn [snd] in Hfr. destruct Hfr as (_ & Hfq & _).
  destruct (negb _).
  - exists (set_complete true ∘ set_forwardID forwardID ∘ g). split.
    + cbn. rewrite Hfq, Hg, !aupd_compose. done.
    + intros q. cbn. apply Hgs.
  - exists (set_forwardID forwardID ∘ g). split.
    + cbn. rewrite Hfq, Hg, !aupd_compose. done.
    + intros q. cbn. apply Hgs.
Qed.

(** C3 (as the code has it): [FTL_forwarded] updates the record with the
    lowest slot index among those that carry the transient ID, that is the
    earliest created one, and leaves every other record as it was; when no
    record below [counters.queries] carries the ID, the handler only takes
    and releases the lock. *)
Theorem forwarded_updates_first_match flags name addr id s :
  queries_filled s ->
  let s' := FTL_forwarded flags name addr id s in
  (forall i,
      0 <= i < counters_queries (counters s) ->
      q_id (query_at s i) = id ->
      (forall j, 0 <= j < i -> q_id (query_at s j) <> id) ->
      q_status (query_at s' i) = QUERY_FORWARDED
      /\ forall j, j <> i -> query_at s' j = query_at s j)
  /\ ((forall j, 0 <= j < counters_queries (counters s) -> q_id (query_at s j) <> id) ->
      s' = disable_thread_lock (enable_thread_lock s)).
Proof.
  intros Hwf s'. unfold queries_filled in Hwf. split.
  - intros i Hi Hid Hlow.
    pose proof (find_query_lowest id s i Hi Hid Hlow) as Hf.
    subst s'. unfold FTL_forwarded.
    change (find_query id (enable_thread_lock s)) with (find_query id s).
    rewrite Hf.
    destruct (forwarded_found_queries (strtolower addr) i (enable_thread_lock s))
      as (f & Hq & Hst).
    unfold query_at. rewrite Hq. cbn [queries enable_thread_lock upd_threadlock].
    split.
    + rewrite aget_aupd_eq by lia. apply Hst.
    + intros j Hj. apply aget_aupd_ne. congruence.
  - intros Hnone. subst s'. unfold FTL_forwarded.
    change (find_query id (enable_thread_lock s)) with (find_query id s).
    destruct (find_query id s) as [k|] eqn:Hf; [|done].
    destruct (find_query_Some _ _ _ Hf) as (Hk & Hkid & _).
    exfalso. apply (Hnone k Hk Hkid).
Qed.

Lemma forwarded_updates_first_match_witness :
  let s := shared_id_state in
  let s' := FTL_forwarded F_IPV4 "a.example" "8.8.8.8" 7 s in
  q_status (query_at s' 0) = QUERY_FORWARDED
  /\ (forall j, j <> 0 -> query_at s' j = query_at s j)
  /\ FTL_forwarded F_IPV4 "a.example" "8.8.8.8" 8 s
     = disable_thread_lock (enable_thread_lock s).
Proof.
  intros s s'.
  assert (queries_filled s) as Hwf by reflexivity.
  destruct (forwarded_updates_first_match F_IPV4 "a.example" "8.8.8.8" 7 s Hwf)
    as [Hfound _].
  destruct (forwarded_updates_first_match F_IPV4 "a.example" "8.8.8.8" 8 s Hwf)
    as [_ Hnone].
  destruct (Hfound 0) as [H1 H2].
  - vm_compute. split; [discriminate|reflexivity].
  - reflexivity.
  - intros j Hj. lia.
  - split; [exact H1|]. split; [exact H2|].
    apply Hnone. intros j Hj.
    assert (j = 0 \/ j = 1) as [-> | ->] by (change (counters_queries (counters s)) with 2 in Hj; lia);
      vm_compute; discriminate.
Defined.

(** C3, as stated, fails: with two records that carry ID 7, the call
    leaves the record in the highest slot (slot 1) as it was and writes the
    earlier one (slot 0). *)
Lemma forwarded_last_match_counterexample :
  let s := shared_id_state in
  let s' := FTL_forwarded F_IPV4 "b.example" "8.8.8.8" 7 s in
  q_id (query_at s 0) = 7 /\ q_id (query_at s 1) = 7
  /\ counters_queries (counters s) = 2
  /\ query_at s' 1 = query_at s 1
  /\ q_status (query_at s' 1) = QUERY_UNKNOWN
  /\ q_status (query_at s 0) = QUERY_UNKNOWN
  /\ q_status (query_at s' 0) = QUERY_FORWARDED.
Proof. vm_compute. repeat split; reflexivity. Qed.

(** For a record that is complete when the check after the loop runs
    (its status was not CACHE, so the loop did not clear [complete]), the
    call returns at that check: the status written in the loop is the only
    change.  Neither [findForwardID] nor the assignment to [forwardID] is
    reached, and no counter and no bucket is touched. *)
Lemma forwarded_complete_early_return flags name addr id s i :
  queries_filled s ->
  find_query id s = Some i ->
  q_complete (query_at s i) = true ->
  q_status (query_at s i) <> QUERY_CACHE ->
  let s' := FTL_forwarded flags name addr id s in
  s' = disable_thread_lock
         (upd_queries (aupd (set_status QUERY_FORWARDED) i) (enable_thread_lock s))
  /\ q_status (query_at s' i) = QUERY_FORWARDED
  /\ q_forwardID (query_at s' i) = q_forwardID (query_at s i)
  /\ forwarded s' = forwarded s
  /\ counters s' = counters s
  /\ overTime s' = overTime s.
Proof.
  intros Hwf Hf Hc Hst s'. unfold queries_filled in Hwf.
  destruct (find_query_Some _ _ _ Hf) as (Hi & _ & _).
  assert (s' = disable_thread_lock
                 (upd_queries (aupd (set_status QUERY_FORWARDED) i)
                              (enable_thread_lock s))) as ->.
  { subst s'. unfold FTL_forwarded.
    change (find_query id (enable_thread_lock s)) with (find_query id s).
    rewrite Hf. unfold forwarded_match.
    change (query_at (enable_thread_lock s) i) with (query_at s i).
    rewrite bool_decide_eq_false_2 by done.
    unfold forwarded_finish. rewrite query_at_aupd by (cbn; lia).
    change (query_at (enable_thread_lock s) i) with (query_at s i).
    cbn [q_complete set_status]. now rewrite Hc. }
  split; [reflexivity|].
  change (query_at (disable_thread_lock ?x) i) with (query_at x i).
  rewrite query_at_aupd by (cbn; lia).
  repeat split.
Qed.

(** Where the destination write is reached: for a record that is not yet
    complete and whose status is not CACHE, the call interns the
    lower-cased destination and stores its ID in the record. *)
Lemma forwarded_incomplete_writes_destination flags name addr id s i :
  queries_filled s ->
  find_query id s = Some i ->
  q_complete (query_at s i) = false ->
  q_status (query_at s i) <> QUERY_CACHE ->
  let s' := FTL_forwarded flags name addr id s in
  q_forwardID (query_at s' i)
  = (findForwardID (strtolower addr) true
       (upd_queries (aupd (set_status QUERY_FORWARDED) i) (enable_thread_lock s))).1
  /\ forwarded s'
     = forwarded (findForwardID (strtolower addr) true
                    (upd_queries (aupd (set_status QUERY_FORWARDED) i)
                                 (enable_thread_lock s))).2.
Proof.
  intros Hwf Hf Hc Hst s'. unfold queries_filled in Hwf.
  destruct (find_query_Some _ _ _ Hf) as (Hi & _ & _).
  subst s'. unfold FTL_forwarded.
  change (find_query id (enable_thread_lock s)) with (find_query id s).
  rewrite Hf. unfold forwarded_match.
  change (query_at (enable_thread_lock s) i) with (query_at s i).
  rewrite bool_decide_eq_false_2 by done.
  unfold forwarded_finish. rewrite query_at_aupd by (cbn; lia).
  change (query_at (enable_thread_lock s) i) with (query_at s i).
  cbn [q_complete set_status]. rewrite Hc.
  set (s1 := upd_queries (aupd (set_status QUERY_FORWARDED) i) (enable_thread_lock s)).
  pose proof (findForwardID_frame (strtolower addr) true s1) as Hfr.
  destruct (findForwardID (strtolower addr) true s1) as [forwardID sf].
  cbv zeta in Hfr. cbn [fst snd] in *. destruct Hfr as (_ & Hfq & _).
  assert (0 <= i < Z.of_nat (length (queries sf))) as Hr.
  { rewrite Hfq. subst s1. cbn. rewrite aupd_length. lia. }
  rewrite query_at_aupd by done.
  destruct (negb _); split; try reflexivity.
  - change (query_at (disable_thread_lock ?x) i) with (query_at x i).
    rewrite query_at_aupd by (cbn; rewrite aupd_length; lia).
    change (query_at (upd_counters ?f (upd_counters ?g ?x)) i) with (query_at x i).
    rewrite query_at_aupd by done. reflexivity.
  - change (query_at (disable_thread_lock ?x) i) with (query_at x i).
    rewrite query_at_aupd by done. reflexivity.
Qed.


(** ** Reply classification *)

Lemma save_reply_type_frame flags queryID s :
  let s' := save_reply_type flags queryID s in
  queries s' = queries s /\ overTime s' = overTime s
  /\ accounting (counters s') = accounting (counters s)
  /\ clients s' = clients s /\ forwarded s' = forwarded s /\ config s' = config s
  /\ threadlock s' = threadlock s.
Proof. unfold save_reply_type. repeat case_match; done. Qed.

Lemma storeIP_frame i ip s :
  let s' := storeIP i ip s in
  queries s' = queries s /\ overTime s' = overTime s /\ counters s' = counters s
  /\ clients s' = clients s /\ forwarded s' = forwarded s /\ config s' = config s
  /\ threadlock s' = threadlock s.
Proof. unfold storeIP. repeat case_match; done. Qed.

Lemma save_reply_type_reply_counter flags queryID s k' :
  reply_counter k' (counters (save_reply_type flags queryID s))
  = reply_counter k' (counters s)
    + (if bool_decide (k' = classify_reply flags) then 1 else 0).
Proof.
  unfold save_reply_type, classify_reply.
  destruct (flag_set flags F_NEG), (flag_set flags F_NXDOMAIN),
    (flag_set flags F_CNAME), k'; cbn; case_bool_decide; try congruence; lia.
Qed.

(** C7: [save_reply_type] classifies by the flag word alone (NEG with
    NXDOMAIN, NEG alone, CNAME, otherwise IP), stores the class in the slot
    of the query's type (0 for A, 1 otherwise, hence for AAAA) of the
    query's domain, and adds one to the counter of exactly that class;
    the classification is the function [classify_reply] of the flags. *)
Theorem save_reply_type_classifies (flags queryID : Z) (s : State) :
  let q := query_at s queryID in
  let replyID := if bool_decide (q_type q = Some TYPE_A) then 0%nat else 1%nat in
  let k := classify_reply flags in
  let s' := save_reply_type flags queryID s in
  domains s' = aupd (set_reply replyID k) (q_domainID q) (domains s)
  /\ (forall k', reply_counter k' (counters s')
                 = reply_counter k' (counters s) + (if bool_decide (k' = k) then 1 else 0))
  /\ accounting (counters s') = accounting (counters s)
  /\ queries s' = queries s /\ overTime s' = overTime s
  /\ (q_type q = Some TYPE_A -> replyID = 0%nat)
  /\ (q_type q = Some TYPE_AAAA -> replyID = 1%nat)
  /\ (0 <= q_domainID q < Z.of_nat (length (domains s)) ->
      d_reply (domain_at s' (q_domainID q))
      = <[replyID := k]> (d_reply (domain_at s (q_domainID q)))).
Proof.
  intros q replyID k s'.
  assert (domains s' = aupd (set_reply replyID k) (q_domainID q) (domains s)) as Hd.
  { subst s' k replyID q. unfold save_reply_type, classify_reply.
    destruct (flag_set flags F_NEG), (flag_set flags F_NXDOMAIN),
      (flag_set flags F_CNAME); reflexivity. }
  split; [exact Hd|]. split.
  { intros k'. apply save_reply_type_reply_counter. }
  pose proof (save_reply_type_frame flags queryID s) as (Hq & Ho & Ha & _).
  split; [exact Ha|]. split; [exact Hq|]. split; [exact Ho|].
  split; [|split].
  - intros Ht. subst replyID. now rewrite Ht.
  - intros Ht. subst replyID. now rewrite Ht.
  - intros Hr. unfold domain_at. rewrite Hd, aget_aupd_eq by done. reflexivity.
Qed.

Lemma save_reply_type_classifies_witness :
  let s := forwarded_state in
  let s' := save_reply_type (F_NEG + F_NXDOMAIN) 0 s in
  d_reply (domain_at s' 0) = [REPLY_NXDOMAIN; REPLY_UNKNOWN]
  /\ counters_reply_NXDOMAIN (counters s') = 1.
Proof.
  intros s s'.
  destruct (save_reply_type_classifies (F_NEG + F_NXDOMAIN) 0 s)
    as (_ & Hc & _ & _ & _ & _ & _ & Hd).
  split.
  - refine (Hd _). vm_compute. split; [discriminate|reflexivity].
  - exact (Hc REPLY_NXDOMAIN).
Defined.

(** ** Events for a record that is already complete *)

Lemma aget_aupd_preserve {A B : Type} (P : A -> B) (d : A) (f : A -> A)
    (i j : Z) (l : list A) :
  (forall x, P (f x) = P x) -> P (aget d (aupd f i l) j) = P (aget d l j).
Proof.
  intros HP. unfold aget, aupd.
  destruct (j <? 0); [done|]. destruct (Z.ltb_spec i 0); [done|].
  rewrite list_lookup_alter. case_decide as Heq; [|done].
  rewrite Heq. destruct (l !! Z.to_nat j); cbn; [apply HP|done].
Qed.

Lemma query_at_aupd_preserve {B : Type} (P : queriesDataStruct -> B)
    (f : queriesDataStruct -> queriesDataStruct) (i j : Z) (s : State) :
  (forall x, P (f x) = P x) ->
  P (query_at (upd_queries (aupd f i) s) j) = P (query_at s j).
Proof. intros HP. unfold query_at. cbn. now apply aget_aupd_preserve. Qed.

(** C5 (as the code has it): when the record that [FTL_cache] or
    [FTL_reply] finds is already complete, [FTL_cache] changes no global
    counter and no time bucket; [FTL_reply] changes no time bucket and none
    of [queries], [unknown], [cached], [blocked], [wildcardblocked],
    [forwardedqueries]; its local-configuration branch also leaves the
    per-reply-kind counters alone, while its forwarded branch adds one to
    the counter of the reply's class when the replied name is the record's
    domain. *)
Theorem replay_on_complete_record (detectStatus : string -> query_status)
    (flags : Z) (name : string) (addr arg : option string)
    (ttl id querytimestamp overTimetimestamp : Z) (s : State) (i : Z) :
  find_query id s = Some i ->
  q_complete (query_at s i) = true ->
  let sc := FTL_cache flags name addr arg ttl id querytimestamp overTimetimestamp s in
  let sr := FTL_reply detectStatus flags name addr ttl id
                      querytimestamp overTimetimestamp s in
  let flags16 := flags `mod` 65536 in
  let forwarded_reply :=
    negb (flag_set flags16 F_CONFIG) && flag_set flags16 F_FORWARD
    && String.eqb (d_domain (domain_at s (q_domainID (query_at s i)))) name in
  counters sc = counters s /\ overTime sc = overTime s
  /\ accounting (counters sr) = accounting (counters s) /\ overTime sr = overTime s
  /\ forall k, reply_counter k (counters sr)
               = reply_counter k (counters s)
                 + (if forwarded_reply && bool_decide (k = classify_reply flags16)
                    then 1 else 0).
Proof.
  intros Hf Hc sc sr flags16 forwarded_reply.
  assert (counters sc = counters s /\ overTime sc = overTime s) as [Hcc Hco].
  { subst sc. unfold FTL_cache.
    destruct (String.eqb (strtolower name) "pi.hole"); [done|].
    destruct (_ || _); [|done].
    change (find_query id (enable_thread_lock s)) with (find_query id s).
    rewrite Hf. rewrite (query_at_aupd_preserve q_complete) by done.
    change (query_at (enable_thread_lock s) i) with (query_at s i).
    rewrite Hc. done. }
  split; [exact Hcc|]. split; [exact Hco|].
  subst sr. unfold FTL_reply. fold flags16.
  change (find_query id (enable_thread_lock s)) with (find_query id s).
  change (query_at (enable_thread_lock s) i) with (query_at s i).
  change (domain_at (enable_thread_lock s) ?x) with (domain_at s x).
  subst forwarded_reply.
  destruct (flag_set flags16 F_CONFIG).
  { rewrite Hf. rewrite (query_at_aupd_preserve q_complete) by done.
    change (query_at (enable_thread_lock s) i) with (query_at s i).
    rewrite Hc. cbn. repeat split. intros k. now rewrite Z.add_0_r. }
  destruct (flag_set flags16 F_FORWARD);
    [|cbn; repeat split; intros; now rewrite Z.add_0_r].
  rewrite Hf. cbv zeta.
  change (query_at (enable_thread_lock s) i) with (query_at s i).
  change (domain_at (enable_thread_lock s) ?x) with (domain_at s x).
  destruct (String.eqb (d_domain (domain_at s (q_domainID (query_at s i)))) name);
    [|cbn; repeat split; intros; now rewrite Z.add_0_r].
  pose proof (save_reply_type_reply_counter flags16 i (enable_thread_lock s)) as Hk.
  pose proof (save_reply_type_frame flags16 i (enable_thread_lock s))
    as (_ & Ho & Ha & _).
  cbv zeta in Ha, Ho.
  set (s1 := save_reply_type flags16 i (enable_thread_lock s)) in *.
  assert (forall s2, (s2 = s1 \/ exists ip, s2 = storeIP i ip s1) ->
            accounting (counters (disable_thread_lock
                                    (upd_queries (aupd (set_ttl ttl) i) s2)))
            = accounting (counters s)
            /\ overTime (disable_thread_lock (upd_queries (aupd (set_ttl ttl) i) s2))
               = overTime s
            /\ forall k, reply_counter k
                           (counters (disable_thread_lock
                                        (upd_queries (aupd (set_ttl ttl) i) s2)))
                         = reply_counter k (counters s)
                           + (if true && bool_decide (k = classify_reply flags16)
                              then 1 else 0)) as Hall.
  { intros s2 Hs2.
    assert (counters s2 = counters s1 /\ overTime s2 = overTime s1) as [Hc2 Ho2].
    { destruct Hs2 as [->|[ip ->]]; [done|].
      pose proof (storeIP_frame i ip s1) as (_ & ? & ? & _). done. }
    cbn [counters overTime disable_thread_lock upd_threadlock upd_queries].
    rewrite Hc2, Ho2. split; [exact Ha|]. split; [exact Ho|].
    intros k. rewrite Hk. reflexivity. }
  cbn [negb andb].
  destruct (_ && _); apply Hall; [right; eexists; reflexivity|left; reflexivity].
Qed.

Lemma replay_on_complete_record_witness :
  let s := forwarded_state in
  let sc := FTL_cache F_FORWARD "example.com" (Some "1.2.3.4") None 60 1 1002 900 s in
  let sr := FTL_reply (fun _ => QUERY_CACHE) F_CONFIG "example.com"
                      (Some "1.2.3.4") 60 1 1002 900 s in
  counters sc = counters s /\ overTime sc = overTime s
  /\ accounting (counters sr) = accounting (counters s) /\ overTime sr = overTime s.
Proof.
  intros s sc sr.
  assert (find_query 1 s = Some 0) as H1 by reflexivity.
  assert (q_complete (query_at s 0) = true) as H2 by reflexivity.
  pose proof (replay_on_complete_record (fun _ => QUERY_CACHE) F_FORWARD
                "example.com" (Some "1.2.3.4") None 60 1 1002 900 s 0 H1 H2)
    as (Ha & Hb & _).
  pose proof (replay_on_complete_record (fun _ => QUERY_CACHE) F_CONFIG
                "example.com" (Some "1.2.3.4") None 60 1 1002 900 s 0 H1 H2)
    as (_ & _ & Hc & Hd & _).
  split; [exact Ha|]. split; [exact Hb|]. split; [exact Hc|exact Hd].
Defined.

(** C5, as stated, fails: the record of [forwarded_state] is complete; a
    reply on the forwarded branch that names the record's domain adds one
    to the per-reply-kind counter [reply_IP], and the same reply once more
    adds one again. *)
Lemma replay_reply_counter_counterexample :
  let reply := FTL_reply (fun _ => QUERY_CACHE) (F_FORWARD + F_IPV4) "example.com"
                         (Some "93.184.216.34") 300 1 1002 900 in
  let s := forwarded_state in
  find_query 1 s = Some 0
  /\ q_complete (query_at s 0) = true
  /\ counters_reply_IP (counters s) = 0
  /\ counters_reply_IP (counters (reply s)) = 1
  /\ q_complete (query_at (reply s) 0) = true
  /\ counters_reply_IP (counters (reply (reply s))) = 2.
Proof. vm_compute. repeat split; reflexivity. Qed.

(** ** The filters of FTL_new_query and FTL_cache *)

Lemma findOverTimeID_extends ts s :
  exists fresh, overTime (findOverTimeID ts s).2 = overTime s ++ fresh
                /\ Forall fresh_bucket fresh.
Proof.
  unfold findOverTimeID. destruct (find_index _ _ _).
  { exists []. cbn. now rewrite app_nil_r. }
  destruct (last (overTime s)) as [o|] eqn:Hlast.
  - destruct (_ <? _).
    + eexists. cbn. split; [reflexivity|].
      apply Forall_forall. intros b Hb. apply list_elem_of_In in Hb.
      apply in_map_iff in Hb as (k & <- & _). repeat split.
    + exists []. cbn. now rewrite app_nil_r.
  - apply last_None in Hlast. exists [new_overTime ts]. cbn. rewrite Hlast.
    split; [done|]. repeat constructor.
Qed.

(** C9 (as the code has it): for a name that lower-cases to "pi.hole",
    [FTL_cache] only takes and releases the lock; [FTL_new_query] creates
    no record and changes no global counter, no domain, client or forward
    entry and no existing time bucket, but its bucket lookup, which runs
    before the test, may have appended fresh buckets to the time-bucket
    table. *)
Theorem sentinel_hostname_skipped (flags : Z) (name addr types : string)
    (caddr arg : option string) (ttl id querytimestamp overTimetimestamp level : Z)
    (s : State) :
  strtolower name = "pi.hole" ->
  let sc := FTL_cache flags name caddr arg ttl id querytimestamp overTimetimestamp s in
  let sq := FTL_new_query flags name addr types id querytimestamp
                          overTimetimestamp level s in
  sc = disable_thread_lock (enable_thread_lock s)
  /\ counters sq = counters s /\ queries sq = queries s /\ domains sq = domains s
  /\ clients sq = clients s /\ forwarded sq = forwarded s /\ config sq = config s
  /\ exists fresh, overTime sq = overTime s ++ fresh /\ Forall fresh_bucket fresh.
Proof.
  intros Hname sc sq. split.
  { subst sc. unfold FTL_cache. now rewrite Hname. }
  subst sq. unfold FTL_new_query.
  destruct (_ && _).
  { cbn. repeat split. exists []. now rewrite app_nil_r. }
  pose proof (findOverTimeID_frame overTimetimestamp (enable_thread_lock s)) as Hfr.
  destruct (findOverTimeID_extends overTimetimestamp (enable_thread_lock s))
    as (fresh & Hext & Hfresh).
  destruct (findOverTimeID overTimetimestamp (enable_thread_lock s)) as [timeidx s1].
  cbv zeta in Hfr. cbn [snd] in Hfr, Hext.
  destruct Hfr as (Hc & Hq & Hd & Hf & Hcl & Hcfg & _).
  rewrite Hname. cbn [String.eqb Ascii.eqb Bool.eqb].
  cbn. repeat split; try done. exists fresh. split; done.
Qed.

Lemma sentinel_hostname_skipped_witness :
  let s := forwarded_state in
  FTL_cache F_FORWARD "Pi.Hole" None None 60 1 1002 900 s
  = disable_thread_lock (enable_thread_lock s)
  /\ counters (FTL_new_query F_IPV4 "Pi.Hole" "10.0.0.1" "query[A]" 9 1002 900 0 s)
     = counters s.
Proof.
  intros s.
  pose proof (sentinel_hostname_skipped F_FORWARD "Pi.Hole" "10.0.0.1" "query[A]"
                None None 60 1 1002 900 0 s eq_refl) as (Ha & _).
  pose proof (sentinel_hostname_skipped F_IPV4 "Pi.Hole" "10.0.0.1" "query[A]"
                None None 60 9 1002 900 0 s eq_refl) as (_ & Hb & _).
  split; [exact Ha|exact Hb].
Defined.

(** C9, as stated, fails: the first query ever seen is one for "pi.hole";
    no record is created and [queries] stays 0, yet a table changed: the
    time-bucket table got its first bucket. *)
Lemma sentinel_hostname_counterexample :
  let s := initial_state example_config in
  let s' := FTL_new_query F_IPV4 "pi.hole" "10.0.0.1" "query[A]" 3 1000 900 0 s in
  overTime s = [] /\ overTime s' = [new_overTime 900]
  /\ queries s' = [] /\ counters_queries (counters s') = 0.
Proof. vm_compute. repeat split; reflexivity. Qed.

(** The AAAA filter compares the label with the string " query[AAAA]",
    which starts with a blank. *)
Lemma aaaa_filter_literal (flags : Z) (name addr : string)
    (id querytimestamp overTimetimestamp level : Z) (s : State) :
  analyze_AAAA (config s) = false ->
  FTL_new_query flags name addr " query[AAAA]" id querytimestamp
                overTimetimestamp level s
  = disable_thread_lock (enable_thread_lock s).
Proof. intros H. unfold FTL_new_query. cbn. now rewrite H. Qed.

(** C4 at a concrete call: AAAA analysis is off and the label is
    "query[AAAA]", the label dnsmasq passes; the filter does not fire, a
    record is created and the counters move. *)
Lemma aaaa_query_is_recorded :
  let s := initial_state (mkConfig false 0) in
  let s' := FTL_new_query 0 "example.com" "fe80::1" "query[AAAA]" 5 1000 900 0 s in
  length (queries s') = 1%nat
  /\ counters_queries (counters s') = 1
  /\ counters_unknown (counters s') = 1
  /\ counters_querytype (counters s') = [0; 1; 0; 0; 0; 0; 0]
  /\ ot_total (overTime_at s' 0) = 1
  /\ ot_clientdata (overTime_at s' 0) = [1].
Proof. vm_compute. repeat split; reflexivity. Qed.

(** ** The lock *)

(** C8 at a concrete call: [FTL_dnsmasq_reload] resets [counters.gravity]
    although the mutex history shows no lock operation for the call. *)
Lemma reload_runs_unlocked :
  let s := run [ EvReadHosts (Some "/etc/pihole/gravity.list") 5 ]
               (initial_state example_config) in
  let s' := FTL_dnsmasq_reload s in
  counters_gravity (counters s) = 5
  /\ counters_gravity (counters s') = 0
  /\ threadlock s' = threadlock s.
Proof. vm_compute. repeat split; reflexivity. Qed.

(** ** The unknown counter and the completed records *)

Lemma completed_count_alter f (n : nat) qs q :
  qs !! n = Some q ->
  completed_count (alter f n qs)
  = completed_count qs - b2z (q_complete q) + b2z (q_complete (f q)).
Proof.
  revert n. induction qs as [|x qs IH]; intros [|n]; cbn; try discriminate.
  - intros [= ->]. unfold b2z. lia.
  - intros H. rewrite (IH n H). lia.
Qed.

Lemma completed_count_app qs qs' :
  completed_count (qs ++ qs') = completed_count qs + completed_count qs'.
Proof. induction qs as [|x qs IH]; cbn; [done|]. rewrite IH. lia. Qed.

Lemma inv_aupd s s' i f u :
  inv s ->
  0 <= i < counters_queries (counters s) ->
  qdata s' = (counters_queries (counters s), u, aupd f i (queries s)) ->
  u + b2z (q_complete (f (query_at s i)))
  = counters_unknown (counters s) + b2z (q_complete (query_at s i)) ->
  (cache_implies_complete (query_at s i) ->
   cache_implies_complete (f (query_at s i))) ->
  inv s'.
Proof.
  intros [Hb Hfl Hc] Hi [= Hn Hu Hq] Hbal Hst. unfold queries_filled in Hfl.
  assert (queries s !! Z.to_nat i = Some (query_at s i)) as Hlk
    by (apply aget_in_range; lia).
  assert (queries s' = alter f (Z.to_nat i) (queries s)) as Hq'.
  { rewrite Hq. unfold aupd. destruct (Z.ltb_spec i 0); [lia|done]. }
  split.
  - rewrite Hq', (completed_count_alter _ _ _ _ Hlk). lia.
  - unfold queries_filled. rewrite Hq', length_alter. lia.
  - rewrite Hq'. apply Forall_alter; [done|].
    intros x Hx Hpx. rewrite Hlk in Hx. injection Hx as <-. auto.
Qed.

Lemma inv_same s s' : inv s -> qdata s' = qdata s -> inv s'.
Proof.
  intros [Hb Hfl Hc] [= Hn Hu Hq]. split.
  - rewrite Hq, Hn, Hu. done.
  - unfold queries_filled in *. rewrite Hq, Hn. done.
  - rewrite Hq. done.
Qed.

Lemma inv_cache_at s i :
  inv s -> 0 <= i < counters_queries (counters s) ->
  cache_implies_complete (query_at s i).
Proof.
  intros [_ Hfl Hc] Hi. unfold queries_filled in Hfl.
  rewrite Forall_lookup in Hc. apply (Hc (Z.to_nat i)).
  apply aget_in_range. lia.
Qed.

(** The collaborators and helpers leave [qdata] alone. *)
Lemma qdata_save_reply_type flags queryID s :
  qdata (save_reply_type flags queryID s) = qdata s.
Proof.
  pose proof (save_reply_type_frame flags queryID s) as (Hq & _ & Ha & _).
  cbv zeta in Hq, Ha. unfold qdata. rewrite Hq.
  injection Ha as -> -> _. done.
Qed.

Lemma qdata_storeIP i ip s : qdata (storeIP i ip s) = qdata s.
Proof.
  pose proof (storeIP_frame i ip s) as (Hq & _ & Hc & _).
  cbv zeta in Hq, Hc. unfold qdata. now rewrite Hq, Hc.
Qed.

Lemma qdata_findOverTimeID ts s : qdata (findOverTimeID ts s).2 = qdata s.
Proof.
  pose proof (findOverTimeID_frame ts s) as (Hc & Hq & _).
  cbv zeta in Hq, Hc. unfold qdata. now rewrite Hq, Hc.
Qed.

Lemma qdata_findForwardID fw b s : qdata (findForwardID fw b s).2 = qdata s.
Proof.
  pose proof (findForwardID_frame fw b s) as (Hc & Hq & _).
  cbv zeta in Hq, Hc. unfold qdata. now rewrite Hq, Hc.
Qed.

Lemma qdata_findDomainID d s : qdata (findDomainID d s).2 = qdata s.
Proof.
  pose proof (findDomainID_frame d s) as (Hc & Hq & _).
  cbv zeta in Hq, Hc. unfold qdata. now rewrite Hq, Hc.
Qed.

Lemma qdata_findClientID c s : qdata (findClientID c s).2 = qdata s.
Proof.
  pose proof (findClientID_frame c s) as (Hc & Hq & _).
  cbv zeta in Hq, Hc. unfold qdata. now rewrite Hq, Hc.
Qed.

(** [qdata] after a step that is one of the record updates. *)
Lemma qdata_upd_queries f s :
  qdata (upd_queries f s) = ((qdata s).1.1, (qdata s).1.2, f (qdata s).2).
Proof. reflexivity. Qed.

Lemma qdata_add_unknown n s :
  qdata (upd_counters (add_unknown n) s)
  = ((qdata s).1.1, (qdata s).1.2 + n, (qdata s).2).
Proof. reflexivity. Qed.

Lemma qdata_add_queries n s :
  qdata (upd_counters (add_queries n) s)
  = ((qdata s).1.1 + n, (qdata s).1.2, (qdata s).2).
Proof. reflexivity. Qed.

Lemma qdata_query_at s s' i : qdata s' = qdata s -> query_at s' i = query_at s i.
Proof. intros [= _ _ Hq]. now apply query_at_frame. Qed.

Lemma qdata_enable s : qdata (enable_thread_lock s) = qdata s.
Proof. reflexivity. Qed.
Lemma qdata_disable s : qdata (disable_thread_lock s) = qdata s.
Proof. reflexivity. Qed.
Lemma qdata_upd_domains f s : qdata (upd_domains f s) = qdata s.
Proof. reflexivity. Qed.
Lemma qdata_upd_overTime f s : qdata (upd_overTime f s) = qdata s.
Proof. reflexivity. Qed.
Lemma qdata_upd_clients f s : qdata (upd_clients f s) = qdata s.
Proof. reflexivity. Qed.
Lemma qdata_upd_forwarded f s : qdata (upd_forwarded f s) = qdata s.
Proof. reflexivity. Qed.
Lemma qdata_get_privacy_level l s : qdata (get_privacy_level l s) = qdata s.
Proof. reflexivity. Qed.
Lemma qdata_validate_access_oTcl t c s : qdata (validate_access_oTcl t c s) = qdata s.
Proof. reflexivity. Qed.
Lemma qdata_add_cached n s : qdata (upd_counters (add_cached n) s) = qdata s.
Proof. reflexivity. Qed.
Lemma qdata_add_blocked n s : qdata (upd_counters (add_blocked n) s) = qdata s.
Proof. reflexivity. Qed.
Lemma qdata_add_wildcardblocked n s :
  qdata (upd_counters (add_wildcardblocked n) s) = qdata s.
Proof. reflexivity. Qed.
Lemma qdata_add_forwardedqueries n s :
  qdata (upd_counters (add_forwardedqueries n) s) = qdata s.
Proof. reflexivity. Qed.
Lemma qdata_upd_gravity f s : qdata (upd_counters (upd_gravity f) s) = qdata s.
Proof. reflexivity. Qed.
Lemma qdata_upd_querytype f s : qdata (upd_counters (upd_querytype f) s) = qdata s.
Proof. reflexivity. Qed.

Create Rewrite HintDb qdata.
#[local] Hint Rewrite qdata_enable qdata_disable qdata_upd_domains qdata_upd_overTime
  qdata_upd_clients qdata_upd_forwarded qdata_get_privacy_level
  qdata_validate_access_oTcl qdata_add_cached qdata_add_blocked
  qdata_add_wildcardblocked qdata_add_forwardedqueries qdata_upd_gravity
  qdata_upd_querytype qdata_save_reply_type qdata_storeIP
  qdata_upd_queries qdata_add_unknown qdata_add_queries : qdata.

(** Brings [qdata] of a straight-line piece of a handler back to [qdata]
    of the state the piece started from. *)
Ltac qdata_simpl :=
  autorewrite with qdata;
  repeat match goal with
         | H : qdata ?x = _ |- context [qdata ?x] => rewrite H; autorewrite with qdata
         end;
  unfold qdata; cbn [fst snd]; rewrite ?aupd_compose.

Lemma inv_FTL_cache flags name addr arg ttl id qt ot s :
  inv s -> inv (FTL_cache flags name addr arg ttl id qt ot s).
Proof.
  intros Hinv. unfold FTL_cache.
  destruct (String.eqb _ _); [by apply (inv_same s)|].
  destruct (_ || _); [|by apply (inv_same s)].
  change (find_query id (enable_thread_lock s)) with (find_query id s).
  destruct (find_query id s) as [i|] eqn:Hf; [|by apply (inv_same s)].
  destruct (find_query_Some _ _ _ Hf) as (Hi & _ & _).
  cbv zeta.
  rewrite (query_at_aupd_preserve q_complete) by done.
  change (query_at (enable_thread_lock s) i) with (query_at s i).
  destruct (q_complete (query_at s i)) eqn:Hc; cbn [negb].
  - eapply (inv_aupd s _ i (set_status (cache_requesttype flags arg)));
      [done|done|reflexivity| |].
    + cbn. rewrite Hc. lia.
    + intros _ _. done.
  - match goal with
    | |- context [findOverTimeID ot ?x] =>
        pose proof (qdata_findOverTimeID ot x) as Hfr;
        destruct (findOverTimeID ot x) as [timeidx s1]
    end.
    cbn [snd] in Hfr.
    eapply (inv_aupd s _ i (set_complete true ∘ set_ttl ttl
                             ∘ set_status (cache_requesttype flags arg)));
      [done|done| | |].
    + destruct (cache_requesttype flags arg), (exact_positive_answer _ _ _ _ _);
        qdata_simpl; reflexivity.
    + cbn. rewrite Hc. cbn. lia.
    + intros _ _. done.
Qed.

Lemma inv_FTL_reply detect flags name addr ttl id qt ot s :
  inv s -> inv (FTL_reply detect flags name addr ttl id qt ot s).
Proof.
  intros Hinv. unfold FTL_reply. cbv zeta.
  change (find_query id (enable_thread_lock s)) with (find_query id s).
  destruct (flag_set _ F_CONFIG).
  { destruct (find_query id s) as [i|] eqn:Hf; [|by apply (inv_same s)].
    destruct (find_query_Some _ _ _ Hf) as (Hi & _ & _).
    set (st := detect _).
    rewrite (query_at_aupd_preserve q_complete) by done.
    change (query_at (enable_thread_lock s) i) with (query_at s i).
    destruct (q_complete (query_at s i)) eqn:Hc; cbn [negb].
    - eapply (inv_aupd s _ i (set_status st)); [done|done|reflexivity| |].
      + cbn. rewrite Hc. lia.
      + intros _ _. done.
    - match goal with
      | |- context [findOverTimeID ot ?x] =>
          pose proof (qdata_findOverTimeID ot x) as Hfr;
          destruct (findOverTimeID ot x) as [timeidx s1]
      end.
      cbn [snd] in Hfr.
      eapply (inv_aupd s _ i (set_complete true ∘ set_ttl ttl ∘ set_status st));
        [done|done| | |].
      + repeat match goal with
               | |- context [if ?b then _ else _] => destruct b
               end; qdata_simpl; reflexivity.
      + cbn. rewrite Hc. cbn. lia.
      + intros _ _. done. }
  destruct (flag_set _ F_FORWARD); [|by apply (inv_same s)].
  destruct (find_query id s) as [i|] eqn:Hf; [|by apply (inv_same s)].
  destruct (find_query_Some _ _ _ Hf) as (Hi & _ & _).
  destruct (String.eqb _ name); [|by apply (inv_same s)].
  eapply (inv_aupd s _ i (set_ttl ttl)); [done|done| | |].
  - destruct (_ && _); qdata_simpl; reflexivity.
  - cbn. lia.
  - done.
Qed.

Lemma inv_FTL_forwarded flags name addr id s :
  inv s -> inv (FTL_forwarded flags name addr id s).
Proof.
  intros Hinv. unfold FTL_forwarded. cbv zeta.
  change (find_query id (enable_thread_lock s)) with (find_query id s).
  destruct (find_query id s) as [i|] eqn:Hf; [|by apply (inv_same s)].
  destruct (find_query_Some _ _ _ Hf) as (Hi & _ & _).
  pose proof (inv_filled _ Hinv) as Hfl. unfold queries_filled in Hfl.
  pose proof (inv_cache_at s i Hinv Hi) as Hcache.
  unfold forwarded_match.
  change (query_at (enable_thread_lock s) i) with (query_at s i).
  case_bool_decide as Hst.
  - (* the record was answered from the cache, hence is complete *)
    pose proof (Hcache Hst) as Hc.
    unfold forwarded_finish.
    rewrite (query_at_aupd_preserve q_complete) by done.
    rewrite query_at_aupd by (cbn; lia). cbn [q_complete set_complete].
    match goal with
    | |- context [findForwardID ?f true ?x] =>
        pose proof (qdata_findForwardID f true x) as Hfr;
        destruct (findForwardID f true x) as [forwardID sf]
    end.
    cbn [snd] in Hfr.
    rewrite (query_at_aupd_preserve q_complete) by done.
    rewrite (qdata_query_at _ _ i Hfr).
    rewrite (query_at_aupd_preserve q_complete) by done.
    rewrite query_at_aupd by (cbn; lia). cbn [q_complete set_complete negb].
    eapply (inv_aupd s _ i (set_complete true ∘ set_forwardID forwardID
                             ∘ set_status QUERY_FORWARDED ∘ set_complete false));
      [done|done| | |].
    + qdata_simpl. reflexivity.
    + cbn. rewrite Hc. cbn. lia.
    + intros _ _. done.
  - unfold forwarded_finish.
    rewrite (query_at_aupd_preserve q_complete) by done.
    change (query_at (enable_thread_lock s) i) with (query_at s i).
    destruct (q_complete (query_at s i)) eqn:Hc.
    + eapply (inv_aupd s _ i (set_status QUERY_FORWARDED));
        [done|done|reflexivity| |].
      * cbn. lia.
      * intros _ [=].
    + match goal with
      | |- context [findForwardID ?f true ?x] =>
          pose proof (qdata_findForwardID f true x) as Hfr;
          destruct (findForwardID f true x) as [forwardID sf]
      end.
      cbn [snd] in Hfr.
      rewrite (query_at_aupd_preserve q_complete) by done.
      rewrite (qdata_query_at _ _ i Hfr).
      rewrite (query_at_aupd_preserve q_complete) by done.
      change (query_at (enable_thread_lock s) i) with (query_at s i).
      rewrite Hc. cbn [negb].
      eapply (inv_aupd s _ i (set_complete true ∘ set_forwardID forwardID
                               ∘ set_status QUERY_FORWARDED));
        [done|done| | |].
      * qdata_simpl. reflexivity.
      * cbn. rewrite Hc. cbn. lia.
      * intros _ [=].
Qed.

Lemma inv_append s s' q :
  inv s ->
  qdata s' = (counters_queries (counters s) + 1, counters_unknown (counters s) + 1,
              queries s ++ [q]) ->
  q_complete q = false -> q_status q <> QUERY_CACHE ->
  inv s'.
Proof.
  intros [Hb Hfl Hc] [= Hn Hu Hq] Hqc Hqs. unfold queries_filled in Hfl. split.
  - rewrite Hq, Hn, Hu, completed_count_app. cbn. rewrite Hqc. lia.
  - unfold queries_filled. rewrite Hq, Hn, length_app. cbn. lia.
  - rewrite Hq. apply Forall_app. split; [done|].
    constructor; [|constructor]. intros Hs. contradiction.
Qed.

Lemma inv_FTL_new_query flags name addr types id qt ot level s :
  inv s -> inv (FTL_new_query flags name addr types id qt ot level s).
Proof.
  intros Hinv. unfold FTL_new_query.
  destruct (_ && _); [by apply (inv_same s)|].
  pose proof (qdata_findOverTimeID ot (enable_thread_lock s)) as Hfr.
  destruct (findOverTimeID ot (enable_thread_lock s)) as [timeidx s1].
  cbn [snd] in Hfr. cbv zeta.
  destruct (String.eqb _ "pi.hole").
  { apply (inv_same s); [done|]. qdata_simpl. reflexivity. }
  destruct (querytype_of types) as [querytype|].
  2:{ apply (inv_same s); [done|]. qdata_simpl. reflexivity. }
  destruct (_ && _).
  { apply (inv_same s); [done|]. qdata_simpl. reflexivity. }
  match goal with
  | |- context [findDomainID ?d ?x] =>
      pose proof (qdata_findDomainID d x) as Hfd;
      destruct (findDomainID d x) as [domainID s2]
  end.
  cbn [snd] in Hfd.
  match goal with
  | |- context [findClientID ?c ?x] =>
      pose proof (qdata_findClientID c x) as Hfc;
      destruct (findClientID c x) as [clientID s3]
  end.
  cbn [snd] in Hfc.
  pose proof (inv_filled _ Hinv) as Hfl. unfold queries_filled in Hfl.
  change (counters_queries (counters (enable_thread_lock s)))
    with (counters_queries (counters s)).
  eapply inv_append; [done| | |].
  - qdata_simpl. rewrite <- Hfl, astore_end. reflexivity.
  - reflexivity.
  - discriminate.
Qed.

Lemma inv_FTL_dnssec status id s : inv s -> inv (FTL_dnssec status id s).
Proof.
  intros Hinv. unfold FTL_dnssec.
  destruct (find_query _ _); [|by apply (inv_same s)].
  apply (inv_same s); [done|]. destruct status; reflexivity.
Qed.

Lemma inv_FTL_dnsmasq_reload s : inv s -> inv (FTL_dnsmasq_reload s).
Proof. intros Hinv. by apply (inv_same s). Qed.

Lemma inv_FTL_read_hosts filename addr_count s :
  inv s -> inv (FTL_read_hosts filename addr_count s).
Proof.
  intros Hinv. apply (inv_same s); [done|]. unfold FTL_read_hosts.
  destruct filename as [f|]; [|done]. destruct (_ || _); done.
Qed.

Lemma inv_initial cfg : inv (initial_state cfg).
Proof. split; [reflexivity|reflexivity|constructor]. Qed.

Lemma inv_handle e s : inv s -> inv (handle e s).
Proof.
  destruct e; cbn [handle];
    auto using inv_FTL_new_query, inv_FTL_forwarded, inv_FTL_reply, inv_FTL_cache,
      inv_FTL_dnssec, inv_FTL_dnsmasq_reload, inv_FTL_read_hosts.
Qed.

Lemma inv_run evs s : inv s -> inv (run evs s).
Proof.
  revert s. induction evs as [|e evs IH]; intros s Hs; [done|].
  cbn. apply IH. now apply inv_handle.
Qed.

(** C1: whatever handlers ran since start-up, and at every point between
    two invocations (after every prefix of the sequence of events), the
    unknown counter plus the number of records with [complete = true]
    equals the number of query records created, which is both the length
    of the query table and [counters.queries]. *)
Theorem unknown_plus_completed (cfg : ConfigStruct) (evs : list event) (n : nat) :
  let s := run (take n evs) (initial_state cfg) in
  counters_unknown (counters s) + completed_count (queries s)
  = Z.of_nat (length (queries s))
  /\ Z.of_nat (length (queries s)) = counters_queries (counters s).
Proof.
  intros s. destruct (inv_run (take n evs) _ (inv_initial cfg)) as [Hb Hfl _].
  fold s in Hb, Hfl. unfold queries_filled in Hfl. split; [lia|done].
Qed.

(** ** The lock discipline of the handlers that take the lock *)

Lemma threadlock_save_reply_type flags queryID s :
  threadlock (save_reply_type flags queryID s) = threadlock s.
Proof. apply save_reply_type_frame. Qed.

Lemma threadlock_storeIP i ip s : threadlock (storeIP i ip s) = threadlock s.
Proof. apply storeIP_frame. Qed.

Lemma threadlock_findOverTimeID ts s :
  threadlock (findOverTimeID ts s).2 = threadlock s.
Proof. apply findOverTimeID_frame. Qed.

Lemma threadlock_findForwardID fw b s :
  threadlock (findForwardID fw b s).2 = threadlock s.
Proof. apply findForwardID_frame. Qed.

Lemma threadlock_findDomainID d s : threadlock (findDomainID d s).2 = threadlock s.
Proof. apply findDomainID_frame. Qed.

Lemma threadlock_findClientID c s : threadlock (findClientID c s).2 = threadlock s.
Proof. apply findClientID_frame. Qed.

(** Splits a [let '(x, s) := collaborator in ...] and keeps what the
    collaborator does to the mutex history. *)
Ltac split_collaborator :=
  match goal with
  | |- context [findOverTimeID ?t ?x] =>
      let H := fresh "Hlk" in
      pose proof (threadlock_findOverTimeID t x) as H;
      destruct (findOverTimeID t x); cbn [snd] in H
  | |- context [findForwardID ?f ?b ?x] =>
      let H := fresh "Hlk" in
      pose proof (threadlock_findForwardID f b x) as H;
      destruct (findForwardID f b x); cbn [snd] in H
  | |- context [findDomainID ?d ?x] =>
      let H := fresh "Hlk" in
      pose proof (threadlock_findDomainID d x) as H;
      destruct (findDomainID d x); cbn [snd] in H
  | |- context [findClientID ?c ?x] =>
      let H := fresh "Hlk" in
      pose proof (threadlock_findClientID c x) as H;
      destruct (findClientID c x); cbn [snd] in H
  end.

Ltac lock_history :=
  repeat first
    [ progress cbn [threadlock upd_counters upd_queries upd_domains upd_overTime
                    upd_clients upd_forwarded upd_threadlock enable_thread_lock
                    disable_thread_lock get_privacy_level set_privacylevel
                    validate_access_oTcl]
    | rewrite threadlock_save_reply_type
    | rewrite threadlock_storeIP
    | match goal with H : threadlock ?x = _ |- context [threadlock ?x] => rewrite H end ].

Ltac split_branches :=
  repeat match goal with
         | |- context [if ?b then _ else _] => destruct b
         | |- context [match ?o with Some _ => _ | None => _ end] => destruct o
         | |- context [match ?r with QUERY_UNKNOWN => _ | _ => _ end] => destruct r
         | |- context [match ?r with STAT_SECURE => _ | _ => _ end] => destruct r
         | _ => split_collaborator
         end.

(** Every handler other than [FTL_dnsmasq_reload] takes the lock once on
    entry and releases it once on every path out. *)
Lemma handlers_bracket_lock (e : event) (s : State) :
  e <> EvReload ->
  threadlock (handle e s) = threadlock s ++ [LOCK; UNLOCK].
Proof.
  intros Hne. destruct e; [| | | | |done|]; cbn [handle].
  - unfold FTL_new_query. cbv zeta. split_branches; lock_history;
      now rewrite <- app_assoc.
  - unfold FTL_forwarded, forwarded_finish, forwarded_match. cbv zeta.
    split_branches; lock_history; now rewrite <- app_assoc.
  - unfold FTL_reply. cbv zeta. split_branches; lock_history;
      now rewrite <- app_assoc.
  - unfold FTL_cache. cbv zeta. split_branches; lock_history;
      now rewrite <- app_assoc.
  - unfold FTL_dnssec. split_branches; lock_history; now rewrite <- app_assoc.
  - unfold FTL_read_hosts. split_branches; lock_history; now rewrite <- app_assoc.
Qed.
